(** * WhisperAPI bridge scripts: a shallow embedding and its properties

    The repository holds two command-line adapters,
    [scripts/faster_whisper_bridge.py] (backend A) and
    [scripts/insanely_fast_whisper_bridge.py] (backend B).  Each one checks
    that the audio path exists, calls an external speech model inside one
    [try]/[except Exception] block, shapes the answer into a dictionary and
    prints it as JSON.

    The embedding keeps the data as Python has it:
    - a [str] is a sequence of Unicode code points ([pystr]);
    - a [float] is an IEEE binary64 number, Rocq's primitive [float];
    - a [dict] is an association list in insertion order;
    - the external libraries (faster-whisper, torch, transformers, librosa,
      [os.path.exists]) are records of functions that either return a value
      or raise; every call to them is logged in a trace of events.

    [argparse] is not modelled: [main] starts from the parsed [Args]. *)

From Stdlib Require Import List String Ascii ZArith NArith Bool Lia Floats.
Import ListNotations.

Set Warnings "-inexact-float,-register-all".

(* ================================================================= *)
(** ** Python strings *)

Definition pystr := list N.

(** A source literal, as the code points of its ASCII characters. *)
Definition py (s : string) : pystr := map N_of_ascii (list_ascii_of_string s).

Module PyStr.

Local Open Scope N_scope.

(** [str.isspace] on one code point: the characters CPython's
    [_PyUnicode_IsWhitespace] accepts. *)
Definition isspace (c : N) : bool :=
  ((9 <=? c) && (c <=? 13)) || ((28 <=? c) && (c <=? 32))
  || (c =? 133) || (c =? 160) || (c =? 5760)
  || ((8192 <=? c) && (c <=? 8202))
  || (c =? 8232) || (c =? 8233) || (c =? 8239) || (c =? 8287) || (c =? 12288).

Fixpoint lstrip (s : pystr) : pystr :=
  match s with
  | [] => []
  | c :: r => if isspace c then lstrip r else s
  end.

Definition rstrip (s : pystr) : pystr := rev (lstrip (rev s)).

(** [s.strip()] *)
Definition strip (s : pystr) : pystr := rstrip (lstrip s).

(** [s.split()] with no separator: maximal runs of non-whitespace, in
    order; [cur] is the word being read, most recent character first. *)
Fixpoint split_from (cur : pystr) (s : pystr) : list pystr :=
  match s with
  | [] => match cur with [] => [] | _ => [rev cur] end
  | c :: r =>
      if isspace c
      then match cur with
           | [] => split_from [] r
           | _ => rev cur :: split_from [] r
           end
      else split_from (c :: cur) r
  end.

Definition split (s : pystr) : list pystr := split_from [] s.

(** [sep.join(parts)] *)
Fixpoint join (sep : pystr) (parts : list pystr) : pystr :=
  match parts with
  | [] => []
  | [p] => p
  | p :: rest => p ++ sep ++ join sep rest
  end.

(** [a == b] *)
Fixpoint eqb (a b : pystr) : bool :=
  match a, b with
  | [], [] => true
  | x :: a', y :: b' => (x =? y) && eqb a' b'
  | _, _ => false
  end.

End PyStr.

(* ================================================================= *)
(** ** Python floats *)

Module PyFloat.

Local Open Scope Z_scope.

(** [bool(x)] for a float: [x != 0.0]; both zeros are falsy, NaN is
    truthy. *)
Definition truthy (x : float) : bool := negb (PrimFloat.eqb x 0%float).

(** [a / b] rounded to the nearest integer, ties to even ([0 < b]). *)
Definition rne_div (a b : Z) : Z :=
  let q := a / b in
  let r := a mod b in
  match 2 * r ?= b with
  | Lt => q
  | Gt => q + 1
  | Eq => if Z.even q then q else q + 1
  end.

(** The exact value [m * 2^e] in hundredths, rounded half to even. *)
Definition hundredths (m : positive) (e : Z) : Z :=
  match e with
  | Zneg p => rne_div (Zpos m * 100) (Z.pow_pos 2 p)
  | _ => Zpos m * 100 * 2 ^ e
  end.

(** The binary64 number nearest to [a / b], with sign [s]. *)
Definition nearest_ratio (s : bool) (a b : positive) : float :=
  SF2Prim (SFdiv prec emax (S754_finite s a 0) (S754_finite false b 0)).

(** [round(x, 2)].  CPython rounds the exact binary value of [x] to two
    decimals (half to even, through [dtoa]) and reads the decimal string
    back as the nearest float; infinities, NaN and zeros are returned as
    they are, and the sign is kept when the result is zero. *)
Definition round2 (x : float) : float :=
  match Prim2SF x with
  | S754_finite s m e =>
      match hundredths m e with
      | Zpos k => nearest_ratio s k 100
      | _ => if s then neg_zero else zero
      end
  | _ => x
  end.

(** [float(i)] for a list index or length [i].  A CPython sequence has
    fewer than [2^63] elements, so the 63-bit conversion is the exact
    one on every index the interpreter can produce. *)
Definition of_nat (i : nat) : float := of_uint63 (Uint63.of_Z (Z.of_nat i)).

(** [a / b] for two [int]s with [0 < b]: true division is correctly
    rounded, and [0 / b] is [0.0].  (The callers divide by a length that
    is not zero or by the sample rate they asked for.) *)
Definition int_truediv (a b : Z) : float :=
  match a, b with
  | Zpos p, Zpos q => nearest_ratio false p q
  | Zneg p, Zpos q => nearest_ratio true p q
  | _, _ => zero
  end.

End PyFloat.

(** The local variable [duration] of backend B is the [int] [0] or a
    [float], depending on the branch that assigned it. *)
Inductive pynum :=
| PyInt (z : Z)
| PyFlt (x : float).

(** [d / n] where [n] is [len(...)] of a non-empty list. *)
Definition truediv_len (d : pynum) (n : nat) : float :=
  match d with
  | PyInt z => PyFloat.int_truediv z (Z.of_nat n)
  | PyFlt x => (x / PyFloat.of_nat n)%float
  end.

(* ================================================================= *)
(** ** Python values, exceptions and effects *)

(** The values the scripts hand to [json.dumps]. *)
Inductive pyval :=
| PNone
| PFloat (x : float)
| PStr (s : pystr)
| PList (l : list pyval)
| PDict (d : list (string * pyval)).

(** [key in d] and [d[key]] on a dictionary. *)
Fixpoint dict_get (key : string) (d : list (string * pyval)) : option pyval :=
  match d with
  | [] => None
  | (k, v) :: r => if String.eqb key k then Some v else dict_get key r
  end.

Definition has_key (key : string) (v : pyval) : bool :=
  match v with
  | PDict d => match dict_get key d with Some _ => true | None => false end
  | _ => false
  end.

Definition get (key : string) (v : pyval) : option pyval :=
  match v with
  | PDict d => dict_get key d
  | _ => None
  end.

(** An instance of [Exception], known by what [str(e)] returns. *)
Record exn := { exn_str : pystr }.

Inductive result (A : Type) :=
| Ok (a : A)
| Raise (e : exn).
Arguments Ok {A} a.
Arguments Raise {A} e.

(** What a run does that the outside can see: documents printed on
    standard output and calls into the external libraries. *)
Inductive event :=
| EvPrint (doc : pyval)
| EvCall (callee : string).

(** A computation logs events and ends with a value or a raised
    exception. *)
Definition M (A : Type) : Type := list event * result A.

Definition ret {A} (a : A) : M A := ([], Ok a).

Definition bind {A B} (m : M A) (f : A -> M B) : M B :=
  match m with
  | (t, Ok a) => let '(t', r) := f a in (t ++ t', r)
  | (t, Raise e) => (t, Raise e)
  end.

(** A call of the external function [callee], whose answer is [r]. *)
Definition call {A} (callee : string) (r : result A) : M A := ([EvCall callee], r).

Declare Scope py_scope.
Delimit Scope py_scope with py.
Notation "x <- c ;; k" := (bind c (fun x => k))
  (at level 61, c at next level, right associativity) : py_scope.
Notation "' p <- c ;; k" := (bind c (fun x => let p := x in k))
  (at level 61, p pattern, c at next level, right associativity) : py_scope.

(** [try: body  except Exception as e: return {"error": str(e)}] *)
Definition except_to_error (body : M pyval) : list event * pyval :=
  match body with
  | (t, Ok v) => (t, v)
  | (t, Raise e) => (t, PDict [("error"%string, PStr (exn_str e))])
  end.

(** A computation that logs calls only. *)
Definition quiet {X} (m : M X) : Prop :=
  flat_map (fun ev => match ev with EvPrint d => [d] | EvCall _ => [] end) (fst m) = [].

(** The end of a process: what it did and its exit status. *)
Record outcome := { trace : list event; exit_code : Z }.

Definition printed (o : outcome) : list pyval :=
  flat_map (fun ev => match ev with EvPrint d => [d] | EvCall _ => [] end) (trace o).

Definition calls (o : outcome) : list string :=
  flat_map (fun ev => match ev with EvCall c => [c] | EvPrint _ => [] end) (trace o).

(* ================================================================= *)
(** ** Backend A: [scripts/faster_whisper_bridge.py] *)

Module faster_whisper_bridge.

Local Open Scope string_scope.
Local Open Scope list_scope.
Local Open Scope py_scope.

(** *** What faster-whisper hands back *)

(** A [Word] of a segment. *)
Record Word := {
  word : pystr;
  start : float;
  end_ : float;
  probability : float
}.

(** The [words] attribute of a segment, as the loop looks at it:
    [hasattr(segment, 'words') and segment.words]. *)
Inductive words_attr :=
| NoWordsAttr
| WordsNone
| Words (ws : list Word).

Record Segment := {
  text : pystr;
  words : words_attr
}.

(** [info], the second component of what [model.transcribe] returns. *)
Record TranscriptionInfo := {
  info_language : pystr;
  info_language_probability : float;
  info_duration : float
}.

(** [segments] is a generator: it yields segments and may raise while it
    is being iterated. *)
Record SegmentGen := {
  yielded : list Segment;
  raises : option exn
}.

(** A loaded [WhisperModel]; [transcribe] gets the audio path, the
    [language] and the [task] (the other keyword arguments are
    constants of the script). *)
Record Model := {
  transcribe : pystr -> option pystr -> pystr -> result (SegmentGen * TranscriptionInfo)
}.

(** The world outside the script. *)
Record Env := {
  import_ok : bool;                       (* [from faster_whisper import WhisperModel] *)
  path_exists : pystr -> bool;            (* [os.path.exists] *)
  WhisperModel : pystr -> pystr -> pystr -> result Model
}.

(** The parsed command line. *)
Record Args := {
  arg_model : pystr;
  arg_audio : pystr;
  arg_device : pystr;                     (* default ['cpu'] *)
  arg_compute_type : pystr;               (* default ['int8'] *)
  arg_language : option pystr;            (* [None] when the flag is absent *)
  arg_translate : bool
}.

(** *** [transcribe_audio] *)

(** [language if language != 'auto' else None] *)
Definition language_kwarg (language : option pystr) : option pystr :=
  match language with
  | Some l => if PyStr.eqb l (py "auto") then None else Some l
  | None => None
  end.

(** ["translate" if translate else "transcribe"] *)
Definition task_kwarg (translate : bool) : pystr :=
  if translate then py "translate" else py "transcribe".

Definition word_dict (w : Word) : pyval :=
  PDict [("word", PStr (word w)); ("start", PFloat (start w));
         ("end", PFloat (end_ w)); ("probability", PFloat (probability w))].

(** The words one segment appends. *)
Definition segment_words (s : Segment) : list pyval :=
  match words s with
  | Words ws => map word_dict ws      (* an empty list is falsy and appends nothing *)
  | WordsNone => []
  | NoWordsAttr => []
  end.

(** The body of [for segment in segments], from the state
    [(full_text, words)]. *)
Fixpoint for_segments (segs : list Segment) (full_text : pystr) (ws : list pyval)
  : pystr * list pyval :=
  match segs with
  | [] => (full_text, ws)
  | s :: rest => for_segments rest (full_text ++ text s ++ py " ") (ws ++ segment_words s)
  end.

(** Running the generator to its end. *)
Definition iterate (g : SegmentGen) : M (pystr * list pyval) :=
  match raises g with
  | None => ret (for_segments (yielded g) [] [])
  | Some e => ([], Raise e)
  end.

Definition try_body (env : Env) (model_path audio_path device compute_type : pystr)
    (language : option pystr) (translate : bool) : M pyval :=
  model <- call "WhisperModel" (WhisperModel env model_path device compute_type) ;;
  ' (segments, info) <- call "model.transcribe"
      (transcribe model audio_path (language_kwarg language) (task_kwarg translate)) ;;
  ' (full_text, ws) <- iterate segments ;;
  ret (PDict [("text", PStr (PyStr.strip full_text));
              ("language", PStr (info_language info));
              ("language_probability", PFloat (info_language_probability info));
              ("duration", PFloat (info_duration info));
              ("words", PList ws)]).

Definition transcribe_audio (env : Env) (model_path audio_path device compute_type : pystr)
    (language : option pystr) (translate : bool) : list event * pyval :=
  except_to_error (try_body env model_path audio_path device compute_type language translate).

(** *** [main] and the script *)

Definition main (env : Env) (args : Args) : outcome :=
  if negb (path_exists env (arg_audio args)) then
    {| trace := [EvPrint (PDict [("error", PStr (py "Audio file not found: " ++ arg_audio args))])];
       exit_code := 1 |}
  else
    let '(t, result) :=
      transcribe_audio env (arg_model args) (arg_audio args) (arg_device args)
        (arg_compute_type args) (arg_language args) (arg_translate args) in
    {| trace := t ++ [EvPrint result]; exit_code := 0 |}.

(** The module as a program: the guarded import, then [main]. *)
Definition script (env : Env) (args : Args) : outcome :=
  if import_ok env then main env args
  else
    {| trace := [EvPrint (PDict [("error",
                   PStr (py "faster-whisper not installed. Run: pip install faster-whisper"))])];
       exit_code := 1 |}.

(** *** Runs *)

Definition run_try (env : Env) (args : Args) : M pyval :=
  try_body env (arg_model args) (arg_audio args) (arg_device args)
    (arg_compute_type args) (arg_language args) (arg_translate args).

(** A successful run: the import works, the audio file exists and the
    [try] block returns the dictionary [v]. *)
Definition succeeds (env : Env) (args : Args) (v : pyval) : Prop :=
  import_ok env = true /\ path_exists env (arg_audio args) = true /\
  exists t, run_try env args = (t, Ok v).

(** A run in which the model load or the inference raises [e]. *)
Definition backend_raises (env : Env) (args : Args) (e : exn) : Prop :=
  import_ok env = true /\ path_exists env (arg_audio args) = true /\
  exists t, run_try env args = (t, Raise e).

(** The same command line with another [--language]. *)
Definition with_language (args : Args) (l : option pystr) : Args :=
  {| arg_model := arg_model args; arg_audio := arg_audio args;
     arg_device := arg_device args; arg_compute_type := arg_compute_type args;
     arg_language := l; arg_translate := arg_translate args |}.

(** The dictionary a [try] block that raises nothing returns. *)
Definition result_dict (g : SegmentGen) (info : TranscriptionInfo) : pyval :=
  PDict [("text", PStr (PyStr.strip (fst (for_segments (yielded g) [] []))));
         ("language", PStr (info_language info));
         ("language_probability", PFloat (info_language_probability info));
         ("duration", PFloat (info_duration info));
         ("words", PList (snd (for_segments (yielded g) [] [])))].

(** *** The output as the specification words it *)

(** The segment texts, in order, joined by single spaces, then trimmed. *)
Definition spec_text (segs : list Segment) : pystr :=
  PyStr.strip (PyStr.join (py " ") (map text segs)).

(** One entry per word of each segment that has words, in segment
    order, with the values the model reported. *)
Definition spec_words (segs : list Segment) : list pyval :=
  List.concat (map (fun s =>
                 match words s with
                 | Words ws =>
                     map (fun w => PDict [("word", PStr (word w)); ("start", PFloat (start w));
                                          ("end", PFloat (end_ w));
                                          ("probability", PFloat (probability w))]) ws
                 | _ => []
                 end) segs).

End faster_whisper_bridge.

(* ================================================================= *)
(** ** Backend B: [scripts/insanely_fast_whisper_bridge.py] *)

Module insanely_fast_whisper_bridge.

Local Open Scope string_scope.
Local Open Scope list_scope.
Local Open Scope py_scope.

(** *** What torch, transformers and librosa hand back *)

(** The value bound to [torch_dtype] once the device is chosen. *)
Inductive dtype :=
| torch_float16
| torch_float32
| torch_attr (name : pystr).        (* what [getattr(torch, name)] returned *)

(** The ["timestamp"] entry of a chunk: missing, [None], or a pair whose
    components may be [None]. *)
Inductive timestamp :=
| NoTimestamp
| TimestampNone
| Timestamp (start_time end_time : option float).

Record Chunk := {
  chunk_text : pystr;
  chunk_timestamp : timestamp
}.

(** The dictionary the pipeline returns: ["text"], and ["chunks"] when
    the pipeline produced them. *)
Record PipeResult := {
  result_text : pystr;
  result_chunks : option (list Chunk)
}.

Record GenerateKwargs := {
  task : pystr;
  kw_language : option pystr
}.

Record SpeechModel := {
  to : pystr -> result unit                             (* [model.to(device)] *)
}.

Record Processor := {
  tokenizer : nat;
  feature_extractor : nat
}.

Record Pipe := {
  run : list float -> GenerateKwargs -> result PipeResult   (* [pipe(audio_data, generate_kwargs=...)] *)
}.

Record Env := {
  import_ok : bool;                                     (* torch, transformers, librosa, numpy *)
  path_exists : pystr -> bool;                          (* [os.path.exists] *)
  cuda_is_available : bool;                             (* [torch.cuda.is_available()] *)
  torch_getattr : pystr -> result dtype;                (* [getattr(torch, name)] *)
  model_from_pretrained : pystr -> dtype -> result SpeechModel;
  processor_from_pretrained : pystr -> result Processor;
  pipeline : SpeechModel -> nat -> nat -> Z -> Z -> bool -> dtype -> pystr -> result Pipe;
  librosa_load : pystr -> result (list float)           (* resampled to [sr=16000] *)
}.

Record Args := {
  arg_model : pystr;
  arg_audio : pystr;
  arg_device : pystr;                                   (* default ['auto'] *)
  arg_torch_dtype : pystr;                              (* default ['auto'] *)
  arg_language : option pystr;                          (* [None] when the flag is absent *)
  arg_translate : bool;
  arg_batch_size : Z;                                   (* default [24] *)
  arg_chunk_length_s : Z;                               (* default [30] *)
  arg_return_timestamps : bool                          (* [store_true] with default [True] *)
}.

(** *** Word-timestamp reconstruction *)

(** One element of [words]. *)
Record WordEntry := {
  word : pystr;
  start : float;
  end_ : float;
  probability : float
}.

(** [for i, word in enumerate(chunk_words)], from index [i]. *)
Fixpoint for_words (start_time word_duration : float) (i : nat) (chunk_words : list pystr)
  : list WordEntry :=
  match chunk_words with
  | [] => []
  | w :: rest =>
      let word_start := (start_time + PyFloat.of_nat i * word_duration)%float in
      let word_end := (word_start + word_duration)%float in
      {| word := w;
         start := PyFloat.round2 word_start;
         end_ := PyFloat.round2 word_end;
         probability := 0.95%float |}
      :: for_words start_time word_duration (S i) rest
  end.

(** [duration = end_time - start_time if end_time else 0] *)
Definition chunk_duration (start_time end_time : float) : pynum :=
  if PyFloat.truthy end_time then PyFlt (end_time - start_time)%float else PyInt 0.

(** [word_duration = duration / len(chunk_words) if chunk_words else 0];
    the [else] is never taken under the guard of the enclosing [if], and
    [0] there acts in the float arithmetic that follows as [0.0]. *)
Definition word_duration (duration : pynum) (chunk_words : list pystr) : float :=
  match chunk_words with
  | [] => 0%float
  | _ :: _ => truediv_len duration (List.length chunk_words)
  end.

(** The entries one chunk appends to [words]. *)
Definition chunk_entries (chunk : Chunk) : list WordEntry :=
  match chunk_timestamp chunk with
  | Timestamp start_time end_time =>          (* key present, a pair is truthy *)
      let chunk_words := PyStr.split (PyStr.strip (chunk_text chunk)) in
      match chunk_words, start_time, end_time with
      | _ :: _, Some start_time, Some end_time =>
          let duration := chunk_duration start_time end_time in
          for_words start_time (word_duration duration chunk_words) 0 chunk_words
      | _, _, _ => []
      end
  | TimestampNone => []                       (* [None] is falsy *)
  | NoTimestamp => []                         (* ["timestamp" in chunk] fails *)
  end.

(** [words] after the loop over [chunks]. *)
Definition reconstruct_words (chunks : list Chunk) (return_timestamps : bool)
  : list WordEntry :=
  match chunks with
  | _ :: _ => if return_timestamps then flat_map chunk_entries chunks else []
  | [] => []
  end.

(** *** [transcribe_audio] *)

(** The device and dtype chosen at the top of the [try] block. *)
Definition resolve_dtype (env : Env) (torch_dtype : pystr) (default : dtype) : M dtype :=
  if PyStr.eqb torch_dtype (py "auto") then ret default
  else call "getattr(torch, torch_dtype)" (torch_getattr env torch_dtype).

Definition resolve_device (env : Env) (device torch_dtype : pystr) : M (pystr * dtype) :=
  if PyStr.eqb device (py "auto") then
    available <- call "torch.cuda.is_available" (Ok (cuda_is_available env)) ;;
    if (available : bool) then
      d <- resolve_dtype env torch_dtype torch_float16 ;; ret (py "cuda:0", d)
    else
      d <- resolve_dtype env torch_dtype torch_float32 ;; ret (py "cpu", d)
  else
    d <- resolve_dtype env torch_dtype torch_float32 ;; ret (device, d).

(** [language if language and language != 'auto' else <default>] *)
Definition language_or {A} (language : option pystr) (some : pystr -> A) (default : A) : A :=
  match language with
  | Some l =>
      match l with
      | [] => default                                   (* [''] is falsy *)
      | _ :: _ => if PyStr.eqb l (py "auto") then default else some l
      end
  | None => default
  end.

Definition generate_kwargs (language : option pystr) (translate : bool) : GenerateKwargs :=
  {| task := if translate then py "translate" else py "transcribe";
     kw_language := language_or language Some None |}.

Definition word_dict (w : WordEntry) : pyval :=
  PDict [("word", PStr (word w)); ("start", PFloat (start w));
         ("end", PFloat (end_ w)); ("probability", PFloat (probability w))].

Definition opt_float (x : option float) : pyval :=
  match x with Some v => PFloat v | None => PNone end.

(** A chunk as the pipeline built it, handed on unchanged under
    ["chunks"]. *)
Definition chunk_dict (c : Chunk) : pyval :=
  match chunk_timestamp c with
  | NoTimestamp => PDict [("text", PStr (chunk_text c))]
  | TimestampNone => PDict [("text", PStr (chunk_text c)); ("timestamp", PNone)]
  | Timestamp s e =>
      PDict [("text", PStr (chunk_text c)); ("timestamp", PList [opt_float s; opt_float e])]
  end.

(** The sample rate [librosa.load(audio_path, sr=16000)] returns. *)
Definition sample_rate : Z := 16000.

Definition try_body (env : Env) (model_path audio_path device torch_dtype : pystr)
    (language : option pystr) (translate : bool) (batch_size chunk_length_s : Z)
    (return_timestamps : bool) : M pyval :=
  ' (device, torch_dtype) <- resolve_device env device torch_dtype ;;
  model <- call "AutoModelForSpeechSeq2Seq.from_pretrained"
             (model_from_pretrained env model_path torch_dtype) ;;
  _ <- call "model.to" (to model device) ;;
  processor <- call "AutoProcessor.from_pretrained" (processor_from_pretrained env model_path) ;;
  pipe <- call "pipeline"
            (pipeline env model (tokenizer processor) (feature_extractor processor)
               chunk_length_s batch_size return_timestamps torch_dtype device) ;;
  audio_data <- call "librosa.load" (librosa_load env audio_path) ;;
  result <- call "pipe" (run pipe audio_data (generate_kwargs language translate)) ;;
  let text := PyStr.strip (result_text result) in
  let chunks := match result_chunks result with Some cs => cs | None => [] end in
  let words := reconstruct_words chunks return_timestamps in
  let duration := PyFloat.int_truediv (Z.of_nat (List.length audio_data)) sample_rate in
  let detected_language := language_or language (fun l => l) (py "pt") in
  ret (PDict [("text", PStr text);
              ("language", PStr detected_language);
              ("language_probability", PFloat 0.95%float);
              ("duration", PFloat duration);
              ("words", PList (map word_dict words));
              ("chunks", PList (map chunk_dict chunks))]).

Definition transcribe_audio (env : Env) (model_path audio_path device torch_dtype : pystr)
    (language : option pystr) (translate : bool) (batch_size chunk_length_s : Z)
    (return_timestamps : bool) : list event * pyval :=
  except_to_error
    (try_body env model_path audio_path device torch_dtype language translate
       batch_size chunk_length_s return_timestamps).

(** *** [main] and the script *)

Definition main (env : Env) (args : Args) : outcome :=
  if negb (path_exists env (arg_audio args)) then
    {| trace := [EvPrint (PDict [("error", PStr (py "Audio file not found: " ++ arg_audio args))])];
       exit_code := 1 |}
  else
    let '(t, result) :=
      transcribe_audio env (arg_model args) (arg_audio args) (arg_device args)
        (arg_torch_dtype args) (arg_language args) (arg_translate args)
        (arg_batch_size args) (arg_chunk_length_s args) (arg_return_timestamps args) in
    {| trace := t ++ [EvPrint result]; exit_code := 0 |}.

(** The module as a program: the guarded imports, then [main]. *)
Definition script (env : Env) (args : Args) : outcome :=
  if import_ok env then main env args
  else
    {| trace := [EvPrint (PDict [("error",
                   PStr (py "Required dependencies not installed. Run: pip install torch transformers librosa numpy"))])];
       exit_code := 1 |}.

(** *** Runs *)

Definition run_try (env : Env) (args : Args) : M pyval :=
  try_body env (arg_model args) (arg_audio args) (arg_device args)
    (arg_torch_dtype args) (arg_language args) (arg_translate args)
    (arg_batch_size args) (arg_chunk_length_s args) (arg_return_timestamps args).

(** A successful run: the imports work, the audio file exists and the
    [try] block returns the dictionary [v]. *)
Definition succeeds (env : Env) (args : Args) (v : pyval) : Prop :=
  import_ok env = true /\ path_exists env (arg_audio args) = true /\
  exists t, run_try env args = (t, Ok v).

(** A run in which the model load or the inference raises [e]. *)
Definition backend_raises (env : Env) (args : Args) (e : exn) : Prop :=
  import_ok env = true /\ path_exists env (arg_audio args) = true /\
  exists t, run_try env args = (t, Raise e).

(** The same command line with another [--language]. *)
Definition with_language (args : Args) (l : option pystr) : Args :=
  {| arg_model := arg_model args; arg_audio := arg_audio args;
     arg_device := arg_device args; arg_torch_dtype := arg_torch_dtype args;
     arg_language := l; arg_translate := arg_translate args;
     arg_batch_size := arg_batch_size args;
     arg_chunk_length_s := arg_chunk_length_s args;
     arg_return_timestamps := arg_return_timestamps args |}.

(** The dictionary a [try] block that raises nothing returns. *)
Definition result_dict (language : option pystr) (return_timestamps : bool)
    (audio_data : list float) (result : PipeResult) : pyval :=
  let chunks := match result_chunks result with Some cs => cs | None => [] end in
  PDict [("text", PStr (PyStr.strip (result_text result)));
         ("language", PStr (language_or language (fun l => l) (py "pt")));
         ("language_probability", PFloat 0.95%float);
         ("duration", PFloat (PyFloat.int_truediv (Z.of_nat (List.length audio_data)) sample_rate));
         ("words", PList (map word_dict (reconstruct_words chunks return_timestamps)));
         ("chunks", PList (map chunk_dict chunks))].

(** *** The reconstruction as the specification words it *)

(** Each entry ends where the next one starts. *)
Fixpoint abutting (es : list WordEntry) : bool :=
  match es with
  | a :: (b :: _) as rest => PrimFloat.eqb (end_ a) (start b) && abutting rest
  | _ => true
  end.

(** The [n] entries of one chunk tile the interval from [start_time] to
    [end_time] evenly: each lasts [(end_time - start_time) / n] and has
    probability [0.95], each ends where the next one starts, the first
    starts at [start_time] and the last ends at [end_time].  Numbers are
    compared as Python's [==] compares them. *)
Definition evenly_tiled (start_time end_time : float) (n : nat) (es : list WordEntry) : bool :=
  Nat.eqb (List.length es) n
  && forallb (fun w =>
                PrimFloat.eqb (end_ w - start w)
                  ((end_time - start_time) / PyFloat.of_nat n)
                && PrimFloat.eqb (probability w) 0.95) es
  && abutting es
  && match es with
     | [] => false
     | a :: _ =>
         PrimFloat.eqb (start a) start_time && PrimFloat.eqb (end_ (last es a)) end_time
     end.

End insanely_fast_whisper_bridge.

Module A := faster_whisper_bridge.
Module B := insanely_fast_whisper_bridge.

(* ================================================================= *)
(** ** Concrete worlds and command lines *)

Module Examples.

Local Open Scope string_scope.
Local Open Scope list_scope.

Definition no_such_model : exn := {| exn_str := py "Invalid model size 'nope'" |}.

(** *** Backend A *)

Definition hello_segments : list A.Segment :=
  [ {| A.text := py " Hello";
       A.words := A.Words [ {| A.word := py " Hello"; A.start := 0%float;
                               A.end_ := 0.5%float; A.probability := 0.9%float |} ] |};
    {| A.text := py " world.";
       A.words := A.WordsNone |} ].

Definition info_en : A.TranscriptionInfo :=
  {| A.info_language := py "en";
     A.info_language_probability := 0.98%float;
     A.info_duration := 1.5%float |}.

Definition model_ok : A.Model :=
  {| A.transcribe := fun _ _ _ =>
       Ok ({| A.yielded := hello_segments; A.raises := None |}, info_en) |}.

(** A world where only [speech.wav] exists and the model works. *)
Definition envA_ok : A.Env :=
  {| A.import_ok := true;
     A.path_exists := fun p => PyStr.eqb p (py "speech.wav");
     A.WhisperModel := fun _ _ _ => Ok model_ok |}.

(** The same world, where loading the model raises. *)
Definition envA_no_model : A.Env :=
  {| A.import_ok := true;
     A.path_exists := fun p => PyStr.eqb p (py "speech.wav");
     A.WhisperModel := fun _ _ _ => Raise no_such_model |}.

Definition argsA : A.Args :=
  {| A.arg_model := py "base"; A.arg_audio := py "speech.wav";
     A.arg_device := py "cpu"; A.arg_compute_type := py "int8";
     A.arg_language := None; A.arg_translate := false |}.

Definition argsA_missing : A.Args :=
  {| A.arg_model := py "base"; A.arg_audio := py "missing.wav";
     A.arg_device := py "cpu"; A.arg_compute_type := py "int8";
     A.arg_language := None; A.arg_translate := false |}.

(** *** Backend B *)

Definition chunk_abc : B.Chunk :=
  {| B.chunk_text := py "a b c";
     B.chunk_timestamp := B.Timestamp (Some 10%float) (Some 13%float) |}.

(** One second of speech that holds three words. *)
Definition chunk_thirds : B.Chunk :=
  {| B.chunk_text := py "a b c";
     B.chunk_timestamp := B.Timestamp (Some 0%float) (Some 1%float) |}.

(** A chunk whose end is [0.0]. *)
Definition chunk_zero_end : B.Chunk :=
  {| B.chunk_text := py "a b";
     B.chunk_timestamp := B.Timestamp (Some 5%float) (Some 0%float) |}.

Definition chunk_untimed : B.Chunk :=
  {| B.chunk_text := py "lost words"; B.chunk_timestamp := B.TimestampNone |}.

(** Eight words in [0.98] seconds. *)
Definition chunk_eight : B.Chunk :=
  {| B.chunk_text := py "a b c d e f g h";
     B.chunk_timestamp := B.Timestamp (Some 0%float) (Some 0.98%float) |}.

(** The pipeline heard English. *)
Definition english_result : B.PipeResult :=
  {| B.result_text := py " the quick brown fox ";
     B.result_chunks := Some [chunk_abc] |}.

Definition pipe_ok : B.Pipe := {| B.run := fun _ _ => Ok english_result |}.

Definition speech_model : B.SpeechModel := {| B.to := fun _ => Ok tt |}.

Definition envB_ok : B.Env :=
  {| B.import_ok := true;
     B.path_exists := fun p => PyStr.eqb p (py "speech.wav");
     B.cuda_is_available := false;
     B.torch_getattr := fun name => Ok (B.torch_attr name);
     B.model_from_pretrained := fun _ _ => Ok speech_model;
     B.processor_from_pretrained := fun _ => Ok {| B.tokenizer := 0; B.feature_extractor := 1 |};
     B.pipeline := fun _ _ _ _ _ _ _ _ => Ok pipe_ok;
     B.librosa_load := fun _ => Ok (repeat 0%float 8) |}.

Definition envB_no_model : B.Env :=
  {| B.import_ok := true;
     B.path_exists := fun p => PyStr.eqb p (py "speech.wav");
     B.cuda_is_available := false;
     B.torch_getattr := fun name => Ok (B.torch_attr name);
     B.model_from_pretrained := fun _ _ => Raise no_such_model;
     B.processor_from_pretrained := fun _ => Ok {| B.tokenizer := 0; B.feature_extractor := 1 |};
     B.pipeline := fun _ _ _ _ _ _ _ _ => Ok pipe_ok;
     B.librosa_load := fun _ => Ok (repeat 0%float 8) |}.

Definition argsB : B.Args :=
  {| B.arg_model := py "openai/whisper-large-v3-turbo"; B.arg_audio := py "speech.wav";
     B.arg_device := py "auto"; B.arg_torch_dtype := py "auto";
     B.arg_language := None; B.arg_translate := false;
     B.arg_batch_size := 24; B.arg_chunk_length_s := 30;
     B.arg_return_timestamps := true |}.

Definition argsB_missing : B.Args :=
  {| B.arg_model := py "openai/whisper-large-v3-turbo"; B.arg_audio := py "missing.wav";
     B.arg_device := py "auto"; B.arg_torch_dtype := py "auto";
     B.arg_language := None; B.arg_translate := false;
     B.arg_batch_size := 24; B.arg_chunk_length_s := 30;
     B.arg_return_timestamps := true |}.

End Examples.

(* ================================================================= *)
(** ** The shape of the printed document *)

(** The keys of a full result. *)
Definition result_keys : list string :=
  ["text"; "language"; "language_probability"; "duration"; "words"]%string.

Definition full_result (d : pyval) : bool := forallb (fun k => has_key k d) result_keys.

Definition no_result_key (d : pyval) : bool :=
  forallb (fun k => negb (has_key k d)) result_keys.

(** A document is a result or an error report, never both: either it has
    every result key and no ["error"], or it has ["error"] and no result
    key. *)
Definition result_xor_error (d : pyval) : Prop :=
  (full_result d = true /\ has_key "error" d = false) \/
  (has_key "error" d = true /\ no_result_key d = true).

(** [0 <= p <= 1] as Python compares floats. *)
Definition in_unit_interval (p : float) : bool :=
  PrimFloat.leb 0%float p && PrimFloat.leb p 1%float.

(** The trace holds no call into an external library. *)
Definition no_backend_call (o : outcome) : Prop := calls o = [].

(* ================================================================= *)
(** ** Call order, words and trimmed text *)

(** The external calls of backend A, in the order the script makes them. *)
Definition call_order_A : list string :=
  ["WhisperModel"; "model.transcribe"]%string.

(** The calls by which backend B chooses the device and the dtype. *)
Definition device_calls_B : list string :=
  ["torch.cuda.is_available"; "getattr(torch, torch_dtype)"]%string.


(** [s] neither starts nor ends with a whitespace character. *)
Definition trimmed (s : pystr) : bool :=
  match s with
  | [] => true
  | c :: _ => negb (PyStr.isspace c) && negb (PyStr.isspace (last s c))
  end.

(** [w] is not empty and holds no whitespace character. *)
Definition is_word (w : pystr) : bool :=
  match w with
  | [] => false
  | _ :: _ => forallb (fun c => negb (PyStr.isspace c)) w
  end.

(** The number of words a chunk holds when both ends of its timestamp
    are numbers, and [0] otherwise. *)
Definition timed_word_count (c : B.Chunk) : nat :=
  match B.chunk_timestamp c with
  | B.Timestamp (Some _) (Some _) => List.length (PyStr.split (PyStr.strip (B.chunk_text c)))
  | _ => 0
  end.

(** Every event of [t] is an external call. *)
Definition only_calls (t : list event) : bool :=
  forallb (fun ev => match ev with EvCall _ => true | EvPrint _ => false end) t.

(** A float that is a number: not an infinity, not NaN. *)
Definition is_finite (x : float) : bool :=
  match Prim2SF x with
  | S754_finite _ _ _ => true
  | S754_zero _ => true
  | _ => false
  end.

(** *** More worlds *)

Module Worlds.

Local Open Scope string_scope.
Local Open Scope list_scope.

Definition out_of_memory : exn := {| exn_str := py "CUDA out of memory" |}.

(** The generator yields two segments and then raises. *)
Definition model_breaks_midway : A.Model :=
  {| A.transcribe := fun _ _ _ =>
       Ok ({| A.yielded := Examples.hello_segments; A.raises := Some out_of_memory |},
           Examples.info_en) |}.

Definition envA_breaks_midway : A.Env :=
  {| A.import_ok := true;
     A.path_exists := fun p => PyStr.eqb p (py "speech.wav");
     A.WhisperModel := fun _ _ _ => Ok model_breaks_midway |}.



Definition no_such_dtype : exn :=
  {| exn_str := py "module 'torch' has no attribute 'float99'" |}.

(** A world where [torch] has no attribute of the name asked for. *)
Definition envB_no_dtype : B.Env :=
  {| B.import_ok := true;
     B.path_exists := fun p => PyStr.eqb p (py "speech.wav");
     B.cuda_is_available := false;
     B.torch_getattr := fun _ => Raise no_such_dtype;
     B.model_from_pretrained := fun _ _ => Ok Examples.speech_model;
     B.processor_from_pretrained := fun _ => Ok {| B.tokenizer := 0; B.feature_extractor := 1 |};
     B.pipeline := fun _ _ _ _ _ _ _ _ => Ok Examples.pipe_ok;
     B.librosa_load := fun _ => Ok (repeat 0%float 8) |}.

Definition argsB_float99 : B.Args :=
  {| B.arg_model := py "openai/whisper-large-v3-turbo"; B.arg_audio := py "speech.wav";
     B.arg_device := py "cpu"; B.arg_torch_dtype := py "float99";
     B.arg_language := None; B.arg_translate := false;
     B.arg_batch_size := 24; B.arg_chunk_length_s := 30;
     B.arg_return_timestamps := true |}.

(** The last chunk of a recording, whose end the pipeline left open. *)
Definition chunk_open_end : B.Chunk :=
  {| B.chunk_text := py "and so on";
     B.chunk_timestamp := B.Timestamp (Some 3%float) None |}.



End Worlds.

(* ================================================================= *)
(** * Properties *)

(** ** Strings *)

Module PyStrFacts.

Import PyStr.

Lemma rstrip_snoc_space s c : isspace c = true -> rstrip (s ++ [c]) = rstrip s.
Proof.
  intros Hc. unfold rstrip. rewrite rev_unit. simpl. now rewrite Hc.
Qed.

(** A trailing whitespace character does not survive [strip]. *)
Lemma strip_snoc_space s c : isspace c = true -> strip (s ++ [c]) = strip s.
Proof.
  intros Hc. unfold strip. induction s as [ | a r IH]; simpl.
  - now rewrite Hc.
  - destruct (isspace a) eqn:Ea; [exact IH | ].
    change (a :: r ++ [c]) with ((a :: r) ++ [c]). now apply rstrip_snoc_space.
Qed.

(** Appending a separator after every part is joining the parts and
    appending one separator, unless there is no part. *)
Lemma concat_sep_join sep parts :
  parts <> [] ->
  List.concat (map (fun p => p ++ sep) parts) = join sep parts ++ sep.
Proof.
  induction parts as [ | p rest IH]; intros Hne; [congruence | ].
  destruct rest as [ | q rest'].
  - simpl. now rewrite app_nil_r.
  - change (join sep (p :: q :: rest')) with (p ++ sep ++ join sep (q :: rest')).
    cbn [map List.concat]. cbn [map List.concat] in IH.
    rewrite IH by congruence. now rewrite <- !app_assoc.
Qed.

Lemma eqb_refl s : eqb s s = true.
Proof. induction s as [ | c r IH]; simpl; [reflexivity | now rewrite N.eqb_refl]. Qed.

End PyStrFacts.

(** ** Binary64 facts *)

Module FloatFacts.
Local Open Scope Z_scope.
Local Open Scope list_scope.

Lemma iter_pos_invariant {A} (P : A -> Prop) (f : A -> A) :
  (forall x, P x -> P (f x)) -> forall n x, P x -> P (iter_pos f n x).
Proof.
  intros Hf n. induction n as [n IH | n IH | ]; intros x Hx; simpl; auto.
Qed.

Lemma shr_1_range b r : 0 <= shr_m r <= b -> 0 <= shr_m (shr_1 r) <= b.
Proof.
  destruct r as [m r s]. simpl.
  destruct m as [ | [p | p | ] | [p | p | ] ]; simpl; lia.
Qed.

Lemma shr_record_of_loc_m m l : shr_m (shr_record_of_loc m l) = m.
Proof. destruct l as [ | [ | | ] ]; reflexivity. Qed.

(** Shifting right keeps a mantissa between [0] and where it started,
    and the new exponent is the old one or the one [fexp] asks for. *)
Lemma shr_fexp_range m e l :
  0 <= m ->
  0 <= shr_m (fst (shr_fexp prec emax m e l)) <= m /\
  (snd (shr_fexp prec emax m e l) = e \/
   snd (shr_fexp prec emax m e l) = fexp prec emax (Zdigits2 m + e)).
Proof.
  intros Hm. unfold shr_fexp, shr.
  destruct (fexp prec emax (Zdigits2 m + e) - e) as [ | n | n ] eqn:En; simpl.
  - rewrite shr_record_of_loc_m. split; [lia | now left].
  - split.
    + apply iter_pos_invariant; [apply shr_1_range | rewrite shr_record_of_loc_m; lia].
    + right. lia.
  - rewrite shr_record_of_loc_m. split; [lia | now left].
Qed.

Lemma digits2_pos_le p : forall k, Zpos p < 2 ^ k -> Zpos (digits2_pos p) <= k.
Proof.
  induction p as [p IH | p IH | ]; intros k Hk.
  - destruct (Z_lt_le_dec k 1) as [Hk1 | Hk1].
    + assert (2 ^ k <= 1) by (destruct k as [ | k | k]; simpl in *; try lia;
        rewrite Z.pow_neg_r in Hk by lia; lia). lia.
    + simpl. rewrite Pos2Z.inj_succ.
      replace k with (Z.succ (k - 1)) in Hk by lia.
      rewrite Z.pow_succ_r in Hk by lia.
      specialize (IH (k - 1)). lia.
  - destruct (Z_lt_le_dec k 1) as [Hk1 | Hk1].
    + assert (2 ^ k <= 1) by (destruct k as [ | k | k]; simpl in *; try lia;
        rewrite Z.pow_neg_r in Hk by lia; lia). lia.
    + simpl. rewrite Pos2Z.inj_succ.
      replace k with (Z.succ (k - 1)) in Hk by lia.
      rewrite Z.pow_succ_r in Hk by lia.
      specialize (IH (k - 1)). lia.
  - simpl. destruct (Z_lt_le_dec k 1) as [Hk1 | Hk1]; [ | lia].
    assert (2 ^ k <= 1) by (destruct k as [ | k | k]; simpl in *; try lia). lia.
Qed.

Lemma Zdigits2_le m k : 0 <= m < 2 ^ k -> 0 <= k -> 0 <= Zdigits2 m <= k.
Proof.
  intros [H0 Hk] Hk0. destruct m as [ | p | p]; simpl; try lia.
  split; [lia | now apply digits2_pos_le].
Qed.

Lemma round_nearest_even_range m l : 0 <= m -> m <= round_nearest_even m l <= m + 1.
Proof.
  intros Hm. destruct l as [ | [ | | ] ]; simpl; try lia.
  destruct (Z.even m); lia.
Qed.

(** Rounding a mantissa below [2^64] at an exponent of moderate size
    gives a zero or a finite number of the sign asked for. *)
Lemma binary_round_aux_finite sx mx ex lx :
  0 <= mx < 2 ^ 64 -> -1074 <= ex <= 0 ->
  binary_round_aux prec emax sx mx ex lx = S754_zero sx \/
  exists m e, binary_round_aux prec emax sx mx ex lx = S754_finite sx m e.
Proof.
  intros Hmx Hex. unfold binary_round_aux.
  pose proof (shr_fexp_range mx ex lx (proj1 Hmx)) as [Hm1 He1].
  destruct (shr_fexp prec emax mx ex lx) as [mrs' e'] eqn:E1. simpl in Hm1, He1.
  set (m2 := round_nearest_even (shr_m mrs') (loc_of_shr_record mrs')).
  pose proof (round_nearest_even_range (shr_m mrs') (loc_of_shr_record mrs') (proj1 Hm1)) as Hm2.
  fold m2 in Hm2.
  assert (H2 : 0 <= m2) by lia.
  pose proof (shr_fexp_range m2 e' loc_Exact H2) as [Hm3 He3].
  destruct (shr_fexp prec emax m2 e' loc_Exact) as [mrs'' e''] eqn:E2. simpl in Hm3, He3.
  assert (Hd1 : 0 <= Zdigits2 mx <= 64) by (apply Zdigits2_le; lia).
  assert (Hd2 : 0 <= Zdigits2 m2 <= 65).
  { apply Zdigits2_le; [ | lia]. change (2 ^ 65) with (2 * 2 ^ 64). lia. }
  assert (He' : e' <= 11).
  { destruct He1 as [-> | ->]; [lia | ]. unfold fexp, SpecFloat.emin, prec, emax. lia. }
  assert (He'' : e'' <= 971).
  { destruct He3 as [-> | ->]; [lia | ]. unfold fexp, SpecFloat.emin, prec, emax. lia. }
  destruct (shr_m mrs'') as [ | m | m ]; [now left | | lia].
  right. exists m, e''.
  replace (e'' <=? emax - prec) with true; [reflexivity | ].
  symmetry. apply Z.leb_le. unfold emax, prec. lia.
Qed.

Lemma digits2_pos_gt p : Zpos p < 2 ^ Zpos (digits2_pos p).
Proof.
  induction p as [p IH | p IH | ]; cbn [digits2_pos]; [ | | reflexivity];
    rewrite Pos2Z.inj_succ, Z.pow_succ_r by lia; lia.
Qed.

Lemma iter_xO_value p d : Zpos (Pos.iter xO p d) = Zpos p * 2 ^ Zpos d.
Proof.
  change (Pos.iter xO p d) with (shift_pos d p).
  rewrite shift_pos_correct, Zpower_pos_nat, Zpower_nat_Z, positive_nat_Z. lia.
Qed.

(** Converting a 63-bit integer never overflows and never gives a
    negative number. *)
Lemma binary_normalize_uint63 z :
  0 <= z < 2 ^ 63 ->
  binary_normalize prec emax z 0 false = S754_zero false \/
  exists m e, binary_normalize prec emax z 0 false = S754_finite false m e.
Proof.
  intros Hz. destruct z as [ | p | p ]; [now left | | lia].
  unfold binary_normalize, binary_round.
  pose proof (digits2_pos_gt p) as Hgt.
  assert (H64 : 2 ^ 63 < 2 ^ 64) by reflexivity.
  assert (Hd : Zpos (digits2_pos p) <= 63) by (apply digits2_pos_le; lia).
  destruct (shl_align p 0 (fexp prec emax (Zpos (digits2_pos p) + 0))) as [mz ez] eqn:E.
  unfold shl_align in E.
  assert (Hf : fexp prec emax (Zpos (digits2_pos p) + 0) = Zpos (digits2_pos p) - 53).
  { unfold fexp, SpecFloat.emin, prec, emax. lia. }
  rewrite Hf in E.
  destruct (Zpos (digits2_pos p) - 53 - 0) as [ | d | d ] eqn:Ed;
    apply pair_equal_spec in E; destruct E as [<- <-].
  - apply binary_round_aux_finite; [ | lia].
    split; [lia | apply Z.lt_trans with (2 ^ 63); [apply Hz | exact H64] ].
  - apply binary_round_aux_finite; [ | lia].
    split; [lia | apply Z.lt_trans with (2 ^ 63); [apply Hz | exact H64] ].
  - apply binary_round_aux_finite; [ | lia].
    rewrite iter_xO_value. split; [lia | ].
    assert (Hp : Zpos p * 2 ^ Zpos d < 2 ^ Zpos (digits2_pos p) * 2 ^ Zpos d).
    { apply Z.mul_lt_mono_pos_r; [apply Z.pow_pos_nonneg; lia | exact Hgt]. }
    rewrite <- Z.pow_add_r in Hp by lia.
    replace (Zpos (digits2_pos p) + Zpos d) with 53 in Hp by lia.
    assert (2 ^ 53 < 2 ^ 64) by reflexivity. lia.
Qed.

Lemma of_uint63_nonneg_finite n :
  Prim2SF (of_uint63 n) = S754_zero false \/
  exists m e, Prim2SF (of_uint63 n) = S754_finite false m e.
Proof.
  rewrite of_uint63_spec. apply binary_normalize_uint63.
  pose proof (Uint63.to_Z_bounded n) as H. exact H.
Qed.

(** [float(i) * 0.0] is [0.0]. *)
Lemma of_uint63_mul_zero n : (of_uint63 n * 0)%float = 0%float.
Proof.
  apply Prim2SF_inj. rewrite mul_spec.
  destruct (of_uint63_nonneg_finite n) as [-> | (m & e & ->)]; reflexivity.
Qed.

(** [x + 0.0] is [x], except that [-0.0 + 0.0] is [0.0]. *)
Lemma add_zero_r x : x <> neg_zero -> (x + 0)%float = x.
Proof.
  intros Hx. apply Prim2SF_inj. rewrite add_spec.
  destruct (Prim2SF x) as [ [ | ] | s | | s m e ] eqn:E; try reflexivity.
  exfalso. apply Hx. apply Prim2SF_inj. rewrite E. reflexivity.
Qed.

End FloatFacts.

(** ** The effect monad *)

Lemma except_to_error_ok t v : except_to_error (t, Ok v) = (t, v).
Proof. reflexivity. Qed.

Lemma except_to_error_raise t e :
  except_to_error (t, Raise e) = (t, PDict [("error"%string, PStr (exn_str e))]).
Proof. reflexivity. Qed.

(** Whatever the [try] block does, the handler returns one value and
    keeps the trace. *)
Lemma except_to_error_cases (body : M pyval) :
  (exists t v, body = (t, Ok v) /\ except_to_error body = (t, v)) \/
  (exists t e, body = (t, Raise e) /\
               except_to_error body = (t, PDict [("error"%string, PStr (exn_str e))])).
Proof.
  destruct body as [t [v | e]]; [left | right]; eauto.
Qed.

(** ** Sequencing *)

Module MFacts.

Local Open Scope list_scope.

Lemma bind_ok_inv {X Y} (m : M X) (f : X -> M Y) t v :
  bind m f = (t, Ok v) ->
  exists t1 a t2, m = (t1, Ok a) /\ f a = (t2, Ok v) /\ t = t1 ++ t2.
Proof.
  unfold bind. destruct m as [t1 [a | e]]; [ | discriminate].
  destruct (f a) as [t2 r] eqn:Ef. intros H. injection H as <- ->.
  now exists t1, a, t2.
Qed.

Lemma call_ok_inv {X} c (r : result X) t a : call c r = (t, Ok a) -> r = Ok a.
Proof. unfold call. intros H. now injection H. Qed.

Lemma ret_ok_inv {X} (x : X) t a : ret x = (t, Ok a) -> a = x.
Proof. unfold ret. intros H. now injection H. Qed.

Lemma quiet_ret {X} (x : X) : quiet (ret x).
Proof. reflexivity. Qed.

Lemma quiet_call {X} c (r : result X) : quiet (call c r).
Proof. reflexivity. Qed.

Lemma quiet_bind {X Y} (m : M X) (f : X -> M Y) :
  quiet m -> (forall a, quiet (f a)) -> quiet (bind m f).
Proof.
  unfold quiet, bind. intros Hm Hf. destruct m as [t1 [a | e]]; [ | exact Hm].
  specialize (Hf a). destruct (f a) as [t2 r]. simpl in *.
  now rewrite flat_map_app, Hm, Hf.
Qed.

End MFacts.

(** ** Backend A *)

Module AFacts.

Import A.
Local Open Scope Z_scope.
Local Open Scope string_scope.
Local Open Scope list_scope.

(** The loop adds each segment's text and a space, and each segment's
    words, in order. *)
Lemma for_segments_spec segs : forall full_text ws,
  for_segments segs full_text ws =
  (full_text ++ List.concat (map (fun s => text s ++ py " ") segs),
   ws ++ flat_map segment_words segs).
Proof.
  induction segs as [ | s rest IH]; intros full_text ws; simpl.
  - now rewrite !app_nil_r.
  - rewrite IH. now rewrite <- !app_assoc.
Qed.

(** The [try] block returns exactly when the model loads, [transcribe]
    returns and the generator runs to its end. *)
Lemma run_try_ok_inv_A env args t v :
  run_try env args = (t, Ok v) ->
  exists model g info,
    WhisperModel env (arg_model args) (arg_device args) (arg_compute_type args) = Ok model /\
    transcribe model (arg_audio args) (language_kwarg (arg_language args))
      (task_kwarg (arg_translate args)) = Ok (g, info) /\
    raises g = None /\
    v = result_dict g info.
Proof.
  unfold run_try, try_body, call, bind, iterate, ret.
  destruct (WhisperModel env _ _ _) as [model | e] eqn:Em; [ | discriminate].
  destruct (transcribe model _ _ _) as [[g info] | e] eqn:Et; [ | discriminate].
  destruct (raises g) as [e | ] eqn:Eg; [discriminate | ].
  destruct (for_segments (yielded g) [] []) as [full_text ws] eqn:Ef. simpl.
  intros H. injection H as _ <-. exists model, g, info.
  unfold result_dict. rewrite Ef. auto.
Qed.

Lemma run_try_ok env args model g info :
  WhisperModel env (arg_model args) (arg_device args) (arg_compute_type args) = Ok model ->
  transcribe model (arg_audio args) (language_kwarg (arg_language args))
    (task_kwarg (arg_translate args)) = Ok (g, info) ->
  raises g = None ->
  run_try env args =
  ([EvCall "WhisperModel"; EvCall "model.transcribe"], Ok (result_dict g info)).
Proof.
  intros Hm Ht Hg. unfold run_try, try_body, call, bind, iterate, ret, result_dict.
  rewrite Hm, Ht, Hg. destruct (for_segments (yielded g) [] []). reflexivity.
Qed.

(** The three places where the [try] block can raise. *)
Lemma run_try_load_raises env args e :
  WhisperModel env (arg_model args) (arg_device args) (arg_compute_type args) = Raise e ->
  run_try env args = ([EvCall "WhisperModel"], Raise e).
Proof.
  intros Hm. unfold run_try, try_body, call, bind. now rewrite Hm.
Qed.

Lemma run_try_transcribe_raises env args model e :
  WhisperModel env (arg_model args) (arg_device args) (arg_compute_type args) = Ok model ->
  transcribe model (arg_audio args) (language_kwarg (arg_language args))
    (task_kwarg (arg_translate args)) = Raise e ->
  run_try env args = ([EvCall "WhisperModel"; EvCall "model.transcribe"], Raise e).
Proof.
  intros Hm Ht. unfold run_try, try_body, call, bind. now rewrite Hm, Ht.
Qed.

Lemma run_try_generator_raises env args model g info e :
  WhisperModel env (arg_model args) (arg_device args) (arg_compute_type args) = Ok model ->
  transcribe model (arg_audio args) (language_kwarg (arg_language args))
    (task_kwarg (arg_translate args)) = Ok (g, info) ->
  raises g = Some e ->
  run_try env args = ([EvCall "WhisperModel"; EvCall "model.transcribe"], Raise e).
Proof.
  intros Hm Ht Hg. unfold run_try, try_body, call, bind, iterate. now rewrite Hm, Ht, Hg.
Qed.

(** What the script prints, by the three ways a run can go. *)
Lemma script_no_import_A env args :
  import_ok env = false ->
  exists msg, script env args =
    {| trace := [EvPrint (PDict [("error", PStr msg)])]; exit_code := 1 |}.
Proof. intros H. unfold script. rewrite H. eauto. Qed.

Lemma script_missing_audio_A env args :
  import_ok env = true -> path_exists env (arg_audio args) = false ->
  script env args =
    {| trace := [EvPrint (PDict [("error", PStr (py "Audio file not found: " ++ arg_audio args))])];
       exit_code := 1 |}.
Proof. intros Hi Hp. unfold script, main. now rewrite Hi, Hp. Qed.

Lemma script_runs_A env args t r :
  import_ok env = true -> path_exists env (arg_audio args) = true ->
  except_to_error (run_try env args) = (t, r) ->
  script env args = {| trace := t ++ [EvPrint r]; exit_code := 0 |}.
Proof.
  intros Hi Hp Hr. unfold script, main, transcribe_audio. rewrite Hi, Hp. simpl.
  unfold run_try in Hr. now rewrite Hr.
Qed.

Lemma printed_app_print t r :
  printed {| trace := t ++ [EvPrint r]; exit_code := 0 |} =
  printed {| trace := t; exit_code := 0 |} ++ [r].
Proof. unfold printed. simpl. now rewrite flat_map_app. Qed.

(** The [try] block prints nothing itself. *)
Lemma run_try_prints_nothing env args :
  printed {| trace := fst (run_try env args); exit_code := 0 |} = [].
Proof.
  unfold run_try, try_body, call, bind, iterate, ret.
  destruct (WhisperModel env _ _ _) as [model | e]; [ | reflexivity].
  destruct (transcribe model _ _ _) as [[g info] | e]; [ | reflexivity].
  destruct (raises g); [reflexivity | ].
  destruct (for_segments (yielded g) [] []). reflexivity.
Qed.

Lemma succeeds_prints_A env args v :
  succeeds env args v -> printed (script env args) = [v] /\ exit_code (script env args) = 0.
Proof.
  intros (Hi & Hp & t & Ht).
  rewrite (script_runs_A env args t v Hi Hp) by now rewrite Ht.
  rewrite printed_app_print. pose proof (run_try_prints_nothing env args) as Hn.
  rewrite Ht in Hn. simpl in Hn. now rewrite Hn.
Qed.

Lemma backend_raises_prints_A env args e :
  backend_raises env args e ->
  printed (script env args) = [PDict [("error", PStr (exn_str e))]] /\
  exit_code (script env args) = 0.
Proof.
  intros (Hi & Hp & t & Ht).
  rewrite (script_runs_A env args t (PDict [("error", PStr (exn_str e))]) Hi Hp)
    by now rewrite Ht.
  rewrite printed_app_print. pose proof (run_try_prints_nothing env args) as Hn.
  rewrite Ht in Hn. simpl in Hn. now rewrite Hn.
Qed.

End AFacts.

(** ** Backend B *)

Module BFacts.

Import B MFacts.
Local Open Scope Z_scope.
Local Open Scope string_scope.
Local Open Scope list_scope.

Ltac bind_inv H :=
  let t1 := fresh "t" in
  let a := fresh "a" in
  let t2 := fresh "t" in
  let Hm := fresh "Hstep" in
  let Ht := fresh "Htrace" in
  apply bind_ok_inv in H; destruct H as (t1 & a & t2 & Hm & H & Ht).

(** The [try] block returns exactly when every external call returns; its
    value is then built from the audio and the pipeline result alone. *)
Lemma run_try_ok_inv_B env args t v :
  run_try env args = (t, Ok v) ->
  exists pipe audio_data result,
    librosa_load env (arg_audio args) = Ok audio_data /\
    run pipe audio_data (generate_kwargs (arg_language args) (arg_translate args)) = Ok result /\
    v = result_dict (arg_language args) (arg_return_timestamps args) audio_data result.
Proof.
  unfold run_try, try_body. intros H.
  bind_inv H. destruct a as [device torch_dtype].
  bind_inv H. bind_inv H. bind_inv H. bind_inv H. bind_inv H. bind_inv H.
  apply ret_ok_inv in H.
  match goal with Hp : call "pipe" _ = _ |- _ => apply call_ok_inv in Hp; rename Hp into Hpipe end.
  match goal with Hl : call "librosa.load" _ = _ |- _ => apply call_ok_inv in Hl; rename Hl into Hload end.
  eexists _, _, _. split; [exact Hload | ]. split; [exact Hpipe | ]. exact H.
Qed.

Lemma quiet_resolve_dtype env torch_dtype default : quiet (resolve_dtype env torch_dtype default).
Proof.
  unfold resolve_dtype. destruct (PyStr.eqb _ _); [apply quiet_ret | apply quiet_call].
Qed.

Lemma quiet_resolve_device env device torch_dtype : quiet (resolve_device env device torch_dtype).
Proof.
  unfold resolve_device. destruct (PyStr.eqb _ _).
  - apply quiet_bind; [apply quiet_call | ]. intros [ | ];
      (apply quiet_bind; [apply quiet_resolve_dtype | intros; apply quiet_ret]).
  - apply quiet_bind; [apply quiet_resolve_dtype | intros; apply quiet_ret].
Qed.

(** The [try] block prints nothing itself. *)
Lemma quiet_run_try env args : quiet (run_try env args).
Proof.
  unfold run_try, try_body.
  apply quiet_bind; [apply quiet_resolve_device | intros [device torch_dtype] ].
  repeat (apply quiet_bind; [apply quiet_call | intros ]).
  apply quiet_ret.
Qed.

Lemma script_no_import_B env args :
  import_ok env = false ->
  exists msg, script env args =
    {| trace := [EvPrint (PDict [("error", PStr msg)])]; exit_code := 1 |}.
Proof. intros H. unfold script. rewrite H. eauto. Qed.

Lemma script_missing_audio_B env args :
  import_ok env = true -> path_exists env (arg_audio args) = false ->
  script env args =
    {| trace := [EvPrint (PDict [("error", PStr (py "Audio file not found: " ++ arg_audio args))])];
       exit_code := 1 |}.
Proof. intros Hi Hp. unfold script, main. now rewrite Hi, Hp. Qed.

Lemma script_runs_B env args t r :
  import_ok env = true -> path_exists env (arg_audio args) = true ->
  except_to_error (run_try env args) = (t, r) ->
  script env args = {| trace := t ++ [EvPrint r]; exit_code := 0 |}.
Proof.
  intros Hi Hp Hr. unfold script, main, transcribe_audio. rewrite Hi, Hp. simpl.
  unfold run_try in Hr. now rewrite Hr.
Qed.

Lemma succeeds_prints_B env args v :
  succeeds env args v -> printed (script env args) = [v] /\ exit_code (script env args) = 0.
Proof.
  intros (Hi & Hp & t & Ht).
  rewrite (script_runs_B env args t v Hi Hp) by now rewrite Ht.
  pose proof (quiet_run_try env args) as Hq. unfold quiet in Hq. rewrite Ht in Hq.
  unfold printed. simpl in *. now rewrite flat_map_app, Hq.
Qed.

Lemma backend_raises_prints_B env args e :
  backend_raises env args e ->
  printed (script env args) = [PDict [("error", PStr (exn_str e))]] /\
  exit_code (script env args) = 0.
Proof.
  intros (Hi & Hp & t & Ht).
  rewrite (script_runs_B env args t (PDict [("error", PStr (exn_str e))]) Hi Hp)
    by now rewrite Ht.
  pose proof (quiet_run_try env args) as Hq. unfold quiet in Hq. rewrite Ht in Hq.
  unfold printed. simpl in *. now rewrite flat_map_app, Hq.
Qed.

(** Two of the places where the [try] block can raise: the model load
    and the inference itself. *)
Lemma run_try_load_raises_B env args t device torch_dtype e :
  resolve_device env (arg_device args) (arg_torch_dtype args) = (t, Ok (device, torch_dtype)) ->
  model_from_pretrained env (arg_model args) torch_dtype = Raise e ->
  run_try env args = (t ++ [EvCall "AutoModelForSpeechSeq2Seq.from_pretrained"], Raise e).
Proof.
  intros Hd Hm. unfold run_try, try_body. rewrite Hd.
  unfold bind, call. now rewrite Hm.
Qed.

Lemma run_try_inference_raises_B env args t device torch_dtype model processor pipe audio_data e :
  resolve_device env (arg_device args) (arg_torch_dtype args) = (t, Ok (device, torch_dtype)) ->
  model_from_pretrained env (arg_model args) torch_dtype = Ok model ->
  to model device = Ok tt ->
  processor_from_pretrained env (arg_model args) = Ok processor ->
  pipeline env model (tokenizer processor) (feature_extractor processor)
    (arg_chunk_length_s args) (arg_batch_size args) (arg_return_timestamps args)
    torch_dtype device = Ok pipe ->
  librosa_load env (arg_audio args) = Ok audio_data ->
  run pipe audio_data (generate_kwargs (arg_language args) (arg_translate args)) = Raise e ->
  exists t', run_try env args = (t', Raise e).
Proof.
  intros Hd Hm Hto Hp Hpipe Hl Hrun. unfold run_try, try_body. rewrite Hd.
  unfold bind, call. rewrite Hm, Hto, Hp, Hpipe, Hl, Hrun. eauto.
Qed.

End BFacts.

(* ================================================================= *)
(** * The properties of the specification *)

Local Open Scope Z_scope.
Local Open Scope string_scope.
Local Open Scope list_scope.

(** ** Backend B: word-timestamp reconstruction *)

(** The loop emits one entry per word, in order; the entry of the word at
    position [i] is computed from the index [k + i]. *)
Lemma for_words_length start_time d chunk_words : forall k,
  List.length (B.for_words start_time d k chunk_words) = List.length chunk_words.
Proof.
  induction chunk_words as [ | w rest IH]; intros k; simpl; [reflexivity | now rewrite IH].
Qed.

Lemma for_words_nth start_time d chunk_words : forall k i w,
  nth_error chunk_words i = Some w ->
  nth_error (B.for_words start_time d k chunk_words) i =
  Some {| B.word := w;
          B.start := PyFloat.round2 (start_time + PyFloat.of_nat (k + i)%nat * d)%float;
          B.end_ := PyFloat.round2 ((start_time + PyFloat.of_nat (k + i)%nat * d) + d)%float;
          B.probability := 0.95%float |}.
Proof.
  induction chunk_words as [ | w0 rest IH]; intros k i w Hi.
  - destruct i; discriminate.
  - destruct i as [ | i]; simpl in *.
    + injection Hi as ->. now rewrite Nat.add_0_r.
    + rewrite (IH (S k) i w Hi). now rewrite Nat.add_succ_r.
Qed.

(** The entries of a chunk whose timestamp is a pair of numbers and whose
    text has a word. *)
Lemma chunk_entries_timed text start_time end_time :
  PyStr.split (PyStr.strip text) <> [] ->
  B.chunk_entries {| B.chunk_text := text;
                     B.chunk_timestamp := B.Timestamp (Some start_time) (Some end_time) |} =
  B.for_words start_time
    (truediv_len (B.chunk_duration start_time end_time)
       (List.length (PyStr.split (PyStr.strip text))))
    0 (PyStr.split (PyStr.strip text)).
Proof.
  intros Hne. unfold B.chunk_entries. simpl.
  destruct (PyStr.split (PyStr.strip text)) as [ | w rest]; [congruence | reflexivity].
Qed.

(** C1, as amended.  For a chunk whose timestamp is a pair [(start, end)]
    of numbers with [end] not zero and whose text splits into [n >= 1]
    words, the chunk adds [n] entries, in the order of the words; the entry
    of the word at position [i] has that word, probability [0.95],
    [start = round(start + i * d, 2)] and
    [end = round(start + i * d + d, 2)], where [d = (end - start) / n], all
    in float arithmetic.  In particular the chunk [(10.0, 13.0)] with text
    ["a b c"] yields the entries [(10, 11)], [(11, 12)], [(12, 13)], which
    tile the interval evenly, each lasting [1.0]. *)
Theorem word_entries_of_timed_chunk :
  forall text start_time end_time,
    PyStr.split (PyStr.strip text) <> [] ->
    PyFloat.truthy end_time = true ->
    let chunk_words := PyStr.split (PyStr.strip text) in
    let n := List.length chunk_words in
    let d := ((end_time - start_time) / PyFloat.of_nat n)%float in
    let es := B.chunk_entries {| B.chunk_text := text;
                                 B.chunk_timestamp := B.Timestamp (Some start_time) (Some end_time) |} in
    List.length es = n /\
    (forall i w,
       nth_error chunk_words i = Some w ->
       nth_error es i =
       Some {| B.word := w;
               B.start := PyFloat.round2 (start_time + PyFloat.of_nat i * d)%float;
               B.end_ := PyFloat.round2 ((start_time + PyFloat.of_nat i * d) + d)%float;
               B.probability := 0.95%float |}) /\
    B.chunk_entries Examples.chunk_abc =
      [ {| B.word := py "a"; B.start := 10%float; B.end_ := 11%float; B.probability := 0.95%float |};
        {| B.word := py "b"; B.start := 11%float; B.end_ := 12%float; B.probability := 0.95%float |};
        {| B.word := py "c"; B.start := 12%float; B.end_ := 13%float; B.probability := 0.95%float |} ] /\
    B.evenly_tiled 10%float 13%float 3 (B.chunk_entries Examples.chunk_abc) = true /\
    map (fun w => (B.end_ w - B.start w)%float) (B.chunk_entries Examples.chunk_abc)
      = [1%float; 1%float; 1%float].
Proof.
  intros text start_time end_time Hne Htruthy chunk_words n d es.
  assert (Hes : es = B.for_words start_time d 0 chunk_words).
  { unfold es. rewrite (chunk_entries_timed text start_time end_time Hne).
    unfold B.chunk_duration. rewrite Htruthy. reflexivity. }
  split; [ | split; [ | split; [ | split] ] ].
  - rewrite Hes. apply for_words_length.
  - intros i w Hi. rewrite Hes. apply (for_words_nth start_time d chunk_words 0 i w Hi).
  - vm_compute. reflexivity.
  - vm_compute. reflexivity.
  - vm_compute. reflexivity.
Qed.

Lemma word_entries_of_timed_chunk_witness :
  List.length (B.chunk_entries Examples.chunk_abc) = 3%nat /\
  (forall i w,
     nth_error [py "a"; py "b"; py "c"] i = Some w ->
     nth_error (B.chunk_entries Examples.chunk_abc) i =
     Some {| B.word := w;
             B.start := PyFloat.round2 (10 + PyFloat.of_nat i * ((13 - 10) / PyFloat.of_nat 3))%float;
             B.end_ := PyFloat.round2 ((10 + PyFloat.of_nat i * ((13 - 10) / PyFloat.of_nat 3))
                                       + (13 - 10) / PyFloat.of_nat 3)%float;
             B.probability := 0.95%float |}) /\
  B.chunk_entries Examples.chunk_abc =
    [ {| B.word := py "a"; B.start := 10%float; B.end_ := 11%float; B.probability := 0.95%float |};
      {| B.word := py "b"; B.start := 11%float; B.end_ := 12%float; B.probability := 0.95%float |};
      {| B.word := py "c"; B.start := 12%float; B.end_ := 13%float; B.probability := 0.95%float |} ] /\
  B.evenly_tiled 10%float 13%float 3 (B.chunk_entries Examples.chunk_abc) = true /\
  map (fun w => (B.end_ w - B.start w)%float) (B.chunk_entries Examples.chunk_abc)
    = [1%float; 1%float; 1%float].
Proof.
  apply (word_entries_of_timed_chunk (py "a b c") 10%float 13%float).
  - vm_compute. discriminate.
  - vm_compute. reflexivity.
Defined.

(** C1, as stated, fails.  On one second of speech that holds three words
    the entries are [(0, 0.33)], [(0.33, 0.67)], [(0.67, 1)], and the
    second one lasts [0.34], not a third of a second.  With eight words in
    [0.98] seconds an entry does not even end where the next one starts:
    the sixth word ends at [0.74] and the seventh starts at [0.73]. *)
Lemma timed_chunks_not_evenly_tiled :
  (B.chunk_entries Examples.chunk_thirds =
     [ {| B.word := py "a"; B.start := 0%float; B.end_ := 0.33%float; B.probability := 0.95%float |};
       {| B.word := py "b"; B.start := 0.33%float; B.end_ := 0.67%float; B.probability := 0.95%float |};
       {| B.word := py "c"; B.start := 0.67%float; B.end_ := 1%float; B.probability := 0.95%float |} ] /\
   forallb (fun w => PrimFloat.eqb (B.end_ w - B.start w) ((1 - 0) / PyFloat.of_nat 3))
     (B.chunk_entries Examples.chunk_thirds) = false /\
   B.evenly_tiled 0%float 1%float 3 (B.chunk_entries Examples.chunk_thirds) = false) /\
  (option_map B.end_ (nth_error (B.chunk_entries Examples.chunk_eight) 5) = Some 0.74%float /\
   option_map B.start (nth_error (B.chunk_entries Examples.chunk_eight) 6) = Some 0.73%float /\
   B.abutting (B.chunk_entries Examples.chunk_eight) = false /\
   B.evenly_tiled 0%float 0.98%float 8 (B.chunk_entries Examples.chunk_eight) = false).
Proof.
  repeat split; vm_compute; reflexivity.
Qed.

(** ** Missing audio file *)

(** C2. When the [--audio] path does not exist, either adapter prints one
    JSON object that has the key ["error"] and exits with status [1], and
    it has made no call into a model library: the trace holds the print
    and nothing else.  (A failed import ends the same way even earlier.) *)
Theorem missing_audio_fails_fast :
  (forall env args,
     A.path_exists env (A.arg_audio args) = false ->
     exit_code (A.script env args) = 1 /\
     no_backend_call (A.script env args) /\
     exists d, trace (A.script env args) = [EvPrint d] /\ has_key "error" d = true) /\
  (forall env args,
     B.path_exists env (B.arg_audio args) = false ->
     exit_code (B.script env args) = 1 /\
     no_backend_call (B.script env args) /\
     exists d, trace (B.script env args) = [EvPrint d] /\ has_key "error" d = true).
Proof.
  split; intros env args Hmissing.
  - destruct (A.import_ok env) eqn:Himport.
    + rewrite (AFacts.script_missing_audio_A env args Himport Hmissing).
      repeat split. eexists. split; reflexivity.
    + destruct (AFacts.script_no_import_A env args Himport) as [msg ->].
      repeat split. eexists. split; reflexivity.
  - destruct (B.import_ok env) eqn:Himport.
    + rewrite (BFacts.script_missing_audio_B env args Himport Hmissing).
      repeat split. eexists. split; reflexivity.
    + destruct (BFacts.script_no_import_B env args Himport) as [msg ->].
      repeat split. eexists. split; reflexivity.
Qed.

Lemma missing_audio_fails_fast_witness :
  (exit_code (A.script Examples.envA_ok Examples.argsA_missing) = 1 /\
   no_backend_call (A.script Examples.envA_ok Examples.argsA_missing) /\
   exists d, trace (A.script Examples.envA_ok Examples.argsA_missing) = [EvPrint d] /\
             has_key "error" d = true) /\
  (exit_code (B.script Examples.envB_ok Examples.argsB_missing) = 1 /\
   no_backend_call (B.script Examples.envB_ok Examples.argsB_missing) /\
   exists d, trace (B.script Examples.envB_ok Examples.argsB_missing) = [EvPrint d] /\
             has_key "error" d = true).
Proof.
  split.
  - apply (proj1 missing_audio_fails_fast Examples.envA_ok Examples.argsA_missing).
    reflexivity.
  - apply (proj2 missing_audio_fails_fast Examples.envB_ok Examples.argsB_missing).
    reflexivity.
Defined.

(** ** Exceptions of the backend *)

(** C3. When the audio path exists and the model load or the inference
    raises an exception [e], either adapter catches it: the one document
    it prints is [{"error": str(e)}] and the process ends with status
    [0]. *)
Theorem backend_exception_reported :
  (forall env args e,
     A.backend_raises env args e ->
     printed (A.script env args) = [PDict [("error", PStr (exn_str e))]] /\
     exit_code (A.script env args) = 0) /\
  (forall env args e,
     B.backend_raises env args e ->
     printed (B.script env args) = [PDict [("error", PStr (exn_str e))]] /\
     exit_code (B.script env args) = 0).
Proof.
  split; intros env args e H.
  - now apply AFacts.backend_raises_prints_A.
  - now apply BFacts.backend_raises_prints_B.
Qed.

Lemma backend_exception_reported_witness :
  (printed (A.script Examples.envA_no_model Examples.argsA)
     = [PDict [("error", PStr (exn_str Examples.no_such_model))]] /\
   exit_code (A.script Examples.envA_no_model Examples.argsA) = 0) /\
  (printed (B.script Examples.envB_no_model Examples.argsB)
     = [PDict [("error", PStr (exn_str Examples.no_such_model))]] /\
   exit_code (B.script Examples.envB_no_model Examples.argsB) = 0).
Proof.
  split.
  - apply (proj1 backend_exception_reported Examples.envA_no_model Examples.argsA).
    repeat split; try reflexivity. eexists. reflexivity.
  - apply (proj2 backend_exception_reported Examples.envB_no_model Examples.argsB).
    repeat split; try reflexivity. eexists. reflexivity.
Defined.

(** ** The printed document *)

Lemma error_dict_shape msg : result_xor_error (PDict [("error", PStr msg)]).
Proof. right. split; reflexivity. Qed.

Lemma result_dict_shape_A g info :
  full_result (A.result_dict g info) = true /\
  has_key "error" (A.result_dict g info) = false /\
  exists ws, get "words" (A.result_dict g info) = Some (PList ws).
Proof. repeat split. eexists. reflexivity. Qed.

Lemma result_dict_shape_B language return_timestamps audio_data result :
  full_result (B.result_dict language return_timestamps audio_data result) = true /\
  has_key "error" (B.result_dict language return_timestamps audio_data result) = false /\
  exists ws, get "words" (B.result_dict language return_timestamps audio_data result)
             = Some (PList ws).
Proof. repeat split. eexists. reflexivity. Qed.

(** C4. A successful run of either adapter prints one object that has
    the keys ["text"], ["language"], ["language_probability"],
    ["duration"] and ["words"], the last one a (possibly empty) list, and no
    ["error"]; and every run prints one object that is a full result or an
    error report, never both. *)
Theorem result_or_error_never_both :
  (forall env args v,
     A.succeeds env args v ->
     printed (A.script env args) = [v] /\ full_result v = true /\
     has_key "error" v = false /\ exists ws, get "words" v = Some (PList ws)) /\
  (forall env args, exists d, printed (A.script env args) = [d] /\ result_xor_error d) /\
  (forall env args v,
     B.succeeds env args v ->
     printed (B.script env args) = [v] /\ full_result v = true /\
     has_key "error" v = false /\ exists ws, get "words" v = Some (PList ws)) /\
  (forall env args, exists d, printed (B.script env args) = [d] /\ result_xor_error d).
Proof.
  split; [ | split; [ | split] ].
  - intros env args v Hok. split; [apply (AFacts.succeeds_prints_A env args v Hok) | ].
    destruct Hok as (_ & _ & t & Ht).
    apply AFacts.run_try_ok_inv_A in Ht. destruct Ht as (model & g & info & _ & _ & _ & ->).
    apply result_dict_shape_A.
  - intros env args.
    destruct (A.import_ok env) eqn:Hi.
    + destruct (A.path_exists env (A.arg_audio args)) eqn:Hp.
      * destruct (A.run_try env args) as [t [v | e]] eqn:Ht.
        -- assert (Hok : A.succeeds env args v) by (repeat split; eauto).
           exists v. split; [apply (AFacts.succeeds_prints_A env args v Hok) | ].
           apply AFacts.run_try_ok_inv_A in Ht.
           destruct Ht as (model & g & info & _ & _ & _ & ->).
           left. split; apply result_dict_shape_A.
        -- assert (Hr : A.backend_raises env args e) by (repeat split; eauto).
           eexists. split; [apply (AFacts.backend_raises_prints_A env args e Hr) | ].
           apply error_dict_shape.
      * rewrite (AFacts.script_missing_audio_A env args Hi Hp).
        eexists. split; [reflexivity | apply error_dict_shape].
    + destruct (AFacts.script_no_import_A env args Hi) as [msg ->].
      eexists. split; [reflexivity | apply error_dict_shape].
  - intros env args v Hok. split; [apply (BFacts.succeeds_prints_B env args v Hok) | ].
    destruct Hok as (_ & _ & t & Ht).
    apply BFacts.run_try_ok_inv_B in Ht. destruct Ht as (pipe & audio & result & _ & _ & ->).
    apply result_dict_shape_B.
  - intros env args.
    destruct (B.import_ok env) eqn:Hi.
    + destruct (B.path_exists env (B.arg_audio args)) eqn:Hp.
      * destruct (B.run_try env args) as [t [v | e]] eqn:Ht.
        -- assert (Hok : B.succeeds env args v) by (repeat split; eauto).
           exists v. split; [apply (BFacts.succeeds_prints_B env args v Hok) | ].
           apply BFacts.run_try_ok_inv_B in Ht.
           destruct Ht as (pipe & audio & result & _ & _ & ->).
           left. split; apply result_dict_shape_B.
        -- assert (Hr : B.backend_raises env args e) by (repeat split; eauto).
           eexists. split; [apply (BFacts.backend_raises_prints_B env args e Hr) | ].
           apply error_dict_shape.
      * rewrite (BFacts.script_missing_audio_B env args Hi Hp).
        eexists. split; [reflexivity | apply error_dict_shape].
    + destruct (BFacts.script_no_import_B env args Hi) as [msg ->].
      eexists. split; [reflexivity | apply error_dict_shape].
Qed.

Lemma result_or_error_never_both_witness :
  full_result (PDict [("text", PStr (py "Hello  world."));
                      ("language", PStr (py "en"));
                      ("language_probability", PFloat 0.98%float);
                      ("duration", PFloat 1.5%float);
                      ("words", PList (A.spec_words Examples.hello_segments))]) = true /\
  exists ws, get "words" (B.result_dict None true (repeat 0%float 8) Examples.english_result)
             = Some (PList ws).
Proof.
  split.
  - apply (proj1 result_or_error_never_both Examples.envA_ok Examples.argsA).
    repeat split; try reflexivity. eexists. reflexivity.
  - apply (proj1 (proj2 (proj2 result_or_error_never_both)) Examples.envB_ok Examples.argsB).
    repeat split; try reflexivity. eexists. reflexivity.
Defined.

(** ** Backend A: text and words *)

Lemma space_isspace : PyStr.isspace 32%N = true.
Proof. reflexivity. Qed.

(** The text the loop builds, trimmed, is the joined text, trimmed. *)
Lemma text_refines_A segs :
  PyStr.strip (fst (A.for_segments segs [] [])) = A.spec_text segs.
Proof.
  rewrite AFacts.for_segments_spec. simpl. unfold A.spec_text.
  destruct segs as [ | s rest]; [reflexivity | ].
  rewrite <- (map_map A.text (fun p => p ++ py " ")).
  rewrite PyStrFacts.concat_sep_join by discriminate.
  apply (PyStrFacts.strip_snoc_space _ 32%N space_isspace).
Qed.

Lemma words_refine_A segs :
  snd (A.for_segments segs [] []) = A.spec_words segs.
Proof.
  rewrite AFacts.for_segments_spec. simpl. unfold A.spec_words.
  rewrite flat_map_concat_map. reflexivity.
Qed.

(** C5. In a successful run of backend A the output ["text"] is the
    segment texts, in the order the model yielded them, joined by single
    spaces and trimmed, and ["words"] lists, in the same order, one entry
    per word of each segment that has words, with the word, start, end and
    probability the model reported. *)
Theorem text_and_words_A :
  forall env args v,
    A.succeeds env args v ->
    exists model g info,
      A.WhisperModel env (A.arg_model args) (A.arg_device args) (A.arg_compute_type args)
        = Ok model /\
      A.transcribe model (A.arg_audio args) (A.language_kwarg (A.arg_language args))
        (A.task_kwarg (A.arg_translate args)) = Ok (g, info) /\
      get "text" v = Some (PStr (A.spec_text (A.yielded g))) /\
      get "words" v = Some (PList (A.spec_words (A.yielded g))).
Proof.
  intros env args v (_ & _ & t & Ht).
  apply AFacts.run_try_ok_inv_A in Ht.
  destruct Ht as (model & g & info & Hm & Htr & _ & ->).
  exists model, g, info. repeat split; try assumption.
  - unfold A.result_dict. simpl. now rewrite text_refines_A.
  - unfold A.result_dict. simpl. now rewrite words_refine_A.
Qed.

Lemma text_and_words_A_witness :
  exists model g info,
    A.WhisperModel Examples.envA_ok (py "base") (py "cpu") (py "int8") = Ok model /\
    A.transcribe model (py "speech.wav") None (py "transcribe") = Ok (g, info) /\
    get "text" (A.result_dict {| A.yielded := Examples.hello_segments; A.raises := None |}
                  Examples.info_en)
      = Some (PStr (A.spec_text (A.yielded g))) /\
    get "words" (A.result_dict {| A.yielded := Examples.hello_segments; A.raises := None |}
                   Examples.info_en)
      = Some (PList (A.spec_words (A.yielded g))).
Proof.
  apply (text_and_words_A Examples.envA_ok Examples.argsA).
  repeat split; try reflexivity. eexists. reflexivity.
Defined.

(** ** Backend B: chunks without a timestamp *)

Lemma reconstruct_words_flat chunks return_timestamps :
  B.reconstruct_words chunks return_timestamps =
  if return_timestamps then flat_map B.chunk_entries chunks else [].
Proof.
  unfold B.reconstruct_words. destruct chunks; [now destruct return_timestamps | reflexivity].
Qed.

(** C6. A chunk that has no ["timestamp"] key, or whose timestamp is
    [None], adds no entry to ["words"]: its own contribution is empty, and
    the word list of any chunk list is the one obtained without it. *)
Theorem untimed_chunk_adds_no_words :
  forall chunk,
    B.chunk_timestamp chunk = B.NoTimestamp \/ B.chunk_timestamp chunk = B.TimestampNone ->
    B.chunk_entries chunk = [] /\
    forall before after return_timestamps,
      B.reconstruct_words (before ++ chunk :: after) return_timestamps =
      B.reconstruct_words (before ++ after) return_timestamps.
Proof.
  intros chunk Hts.
  assert (Hnone : B.chunk_entries chunk = []).
  { unfold B.chunk_entries. destruct Hts as [-> | ->]; reflexivity. }
  split; [exact Hnone | ].
  intros before after rt. rewrite !reconstruct_words_flat.
  destruct rt; [ | reflexivity].
  rewrite !flat_map_app. simpl. now rewrite Hnone.
Qed.

Lemma untimed_chunk_adds_no_words_witness :
  B.chunk_entries Examples.chunk_untimed = [] /\
  forall before after return_timestamps,
    B.reconstruct_words (before ++ Examples.chunk_untimed :: after) return_timestamps =
    B.reconstruct_words (before ++ after) return_timestamps.
Proof.
  apply (untimed_chunk_adds_no_words Examples.chunk_untimed). right. reflexivity.
Defined.

(** ** The language field *)

Lemma language_or_unrequested {X} (some : pystr -> X) (default : X) :
  B.language_or None some default = default /\
  B.language_or (Some (py "auto")) some default = default /\
  B.language_or (Some []) some default = default.
Proof. repeat split. Qed.

(** C7. Backend A reports the language the model returned in [info].
    Backend B reports the requested language when one was requested; when
    none was (the flag is absent, empty or [auto]) it reports the constant
    ["pt"], whatever the pipeline heard: in the world [envB_ok] the pipeline
    returns an English transcript and the printed language is ["pt"]. *)
Theorem language_field_of_each_backend :
  (forall env args v,
     A.succeeds env args v ->
     exists model g info,
       A.WhisperModel env (A.arg_model args) (A.arg_device args) (A.arg_compute_type args)
         = Ok model /\
       A.transcribe model (A.arg_audio args) (A.language_kwarg (A.arg_language args))
         (A.task_kwarg (A.arg_translate args)) = Ok (g, info) /\
       get "language" v = Some (PStr (A.info_language info))) /\
  (forall env args v,
     B.succeeds env args v ->
     get "language" v = Some (PStr (B.language_or (B.arg_language args) (fun l => l) (py "pt")))) /\
  (forall env args v,
     B.succeeds env args v ->
     B.arg_language args = None \/ B.arg_language args = Some (py "auto") ->
     get "language" v = Some (PStr (py "pt"))) /\
  (exists d,
     printed (B.script Examples.envB_ok Examples.argsB) = [d] /\
     get "text" d = Some (PStr (py "the quick brown fox")) /\
     get "language" d = Some (PStr (py "pt"))).
Proof.
  split; [ | split; [ | split] ].
  - intros env args v (_ & _ & t & Ht).
    apply AFacts.run_try_ok_inv_A in Ht.
    destruct Ht as (model & g & info & Hm & Htr & _ & ->).
    now exists model, g, info.
  - intros env args v (_ & _ & t & Ht).
    apply BFacts.run_try_ok_inv_B in Ht.
    destruct Ht as (pipe & audio & result & _ & _ & ->). reflexivity.
  - intros env args v (_ & _ & t & Ht) Hlang.
    apply BFacts.run_try_ok_inv_B in Ht.
    destruct Ht as (pipe & audio & result & _ & _ & ->).
    destruct Hlang as [-> | ->]; reflexivity.
  - eexists. repeat split.
Qed.

(** ** The language probability *)

(** C8. In a successful run the output ["language_probability"] lies in
    [[0, 1]]: backend B always emits [0.95]; backend A emits the confidence
    the model reported, which is assumed to lie in [[0, 1]]. *)
Theorem language_probability_in_unit_interval :
  (forall env args v model g info,
     A.succeeds env args v ->
     A.WhisperModel env (A.arg_model args) (A.arg_device args) (A.arg_compute_type args)
       = Ok model ->
     A.transcribe model (A.arg_audio args) (A.language_kwarg (A.arg_language args))
       (A.task_kwarg (A.arg_translate args)) = Ok (g, info) ->
     in_unit_interval (A.info_language_probability info) = true ->
     get "language_probability" v = Some (PFloat (A.info_language_probability info)) /\
     exists p, get "language_probability" v = Some (PFloat p) /\ in_unit_interval p = true) /\
  (forall env args v,
     B.succeeds env args v ->
     get "language_probability" v = Some (PFloat 0.95%float) /\
     in_unit_interval 0.95%float = true).
Proof.
  split.
  - intros env args v model g info (_ & _ & t & Ht) Hm Htr Hp.
    apply AFacts.run_try_ok_inv_A in Ht.
    destruct Ht as (model' & g' & info' & Hm' & Htr' & _ & ->).
    rewrite Hm in Hm'. injection Hm' as <-.
    rewrite Htr in Htr'. injection Htr' as <- <-.
    split; [reflexivity | ]. eexists. split; [reflexivity | exact Hp].
  - intros env args v (_ & _ & t & Ht).
    apply BFacts.run_try_ok_inv_B in Ht.
    destruct Ht as (pipe & audio & result & _ & _ & ->). split; reflexivity.
Qed.

Lemma language_probability_in_unit_interval_witness :
  (get "language_probability"
     (A.result_dict {| A.yielded := Examples.hello_segments; A.raises := None |} Examples.info_en)
     = Some (PFloat 0.98%float) /\
   exists p,
     get "language_probability"
       (A.result_dict {| A.yielded := Examples.hello_segments; A.raises := None |} Examples.info_en)
       = Some (PFloat p) /\ in_unit_interval p = true) /\
  (get "language_probability"
     (B.result_dict None true (repeat 0%float 8) Examples.english_result)
     = Some (PFloat 0.95%float) /\
   in_unit_interval 0.95%float = true).
Proof.
  split.
  - apply (proj1 language_probability_in_unit_interval Examples.envA_ok Examples.argsA _
             Examples.model_ok {| A.yielded := Examples.hello_segments; A.raises := None |}
             Examples.info_en); try reflexivity.
    repeat split; try reflexivity. eexists. reflexivity.
  - apply (proj2 language_probability_in_unit_interval Examples.envB_ok Examples.argsB).
    repeat split; try reflexivity. eexists. reflexivity.
Defined.

(** ** [--language auto] *)

(** C9. Passing [--language auto] gives the same run as leaving the flag
    out: both reach the backend as the language [None] (and, in backend B,
    as the same output language), so the whole outcome, trace and exit
    status, is the same in the same world with the other arguments equal. *)
Theorem language_auto_is_no_language :
  (A.language_kwarg (Some (py "auto")) = None /\ A.language_kwarg None = None) /\
  (forall env args,
     A.script env (A.with_language args (Some (py "auto"))) =
     A.script env (A.with_language args None)) /\
  (forall translate,
     B.kw_language (B.generate_kwargs (Some (py "auto")) translate) = None /\
     B.kw_language (B.generate_kwargs None translate) = None) /\
  (forall env args,
     B.script env (B.with_language args (Some (py "auto"))) =
     B.script env (B.with_language args None)).
Proof.
  split; [split; reflexivity | ].
  split; [intros env args; unfold A.script, A.main, A.transcribe_audio, A.try_body; reflexivity | ].
  split; [intros translate; split; reflexivity | ].
  intros env args. unfold B.script, B.main, B.transcribe_audio, B.try_body. reflexivity.
Qed.

(** ** Backend B: a chunk that ends at zero *)

(** With a word duration of [0.0] every entry starts and ends at
    [round(start_time + 0.0, 2)]. *)
Lemma for_words_zero_duration start_time chunk_words : forall k w,
  In w (B.for_words start_time 0%float k chunk_words) ->
  B.start w = PyFloat.round2 (start_time + 0)%float /\
  B.end_ w = PyFloat.round2 ((start_time + 0) + 0)%float.
Proof.
  induction chunk_words as [ | w0 rest IH]; intros k w Hin; simpl in Hin; [contradiction | ].
  destruct Hin as [<- | Hin]; [ | exact (IH (S k) w Hin)].
  simpl. unfold PyFloat.of_nat. rewrite FloatFacts.of_uint63_mul_zero. auto.
Qed.

(** Whether a float is [-0.0]. *)
Lemma neg_zero_dec x : x = neg_zero \/ x <> neg_zero.
Proof.
  destruct (PrimFloat.Leibniz.eqb x neg_zero) eqn:E.
  - left. now apply FloatAxioms.Leibniz.eqb_spec.
  - right. intros H. apply FloatAxioms.Leibniz.eqb_spec in H. congruence.
Qed.

(** C10. For a chunk whose timestamp is [(start, end)] with [end] zero
    (falsy) and whose text has [n >= 1] words, the chunk duration is the
    integer [0], and each of the [n] entries has [start] equal to [end] equal
    to [round(start, 2)]: no share of the interval from [start] to [0] is
    given out.  (For [start = -0.0] the entries carry [0.0], the number
    [round(-0.0, 2)] is equal to.) *)
Theorem zero_end_gives_zero_length_words :
  forall text start_time end_time,
    PyStr.split (PyStr.strip text) <> [] ->
    PyFloat.truthy end_time = false ->
    let es := B.chunk_entries {| B.chunk_text := text;
                                 B.chunk_timestamp := B.Timestamp (Some start_time) (Some end_time) |} in
    B.chunk_duration start_time end_time = PyInt 0 /\
    List.length es = List.length (PyStr.split (PyStr.strip text)) /\
    forall w, In w es ->
      B.start w = B.end_ w /\
      (start_time <> neg_zero -> B.start w = PyFloat.round2 start_time) /\
      (start_time = neg_zero ->
         B.start w = 0%float /\ PrimFloat.eqb (B.start w) (PyFloat.round2 start_time) = true).
Proof.
  intros text start_time end_time Hne Hfalsy es.
  assert (Hdur : B.chunk_duration start_time end_time = PyInt 0).
  { unfold B.chunk_duration. now rewrite Hfalsy. }
  assert (Hes : es = B.for_words start_time 0%float 0 (PyStr.split (PyStr.strip text))).
  { unfold es. rewrite (chunk_entries_timed text start_time end_time Hne), Hdur. reflexivity. }
  split; [exact Hdur | ]. split; [rewrite Hes; apply for_words_length | ].
  intros w Hin. rewrite Hes in Hin.
  destruct (for_words_zero_duration start_time _ 0 w Hin) as [Hs He].
  rewrite Hs, He.
  destruct (neg_zero_dec start_time) as [-> | Hnz].
  - split; [reflexivity | ]. split; [congruence | ]. intros _. split; reflexivity.
  - rewrite !(FloatFacts.add_zero_r start_time Hnz).
    split; [reflexivity | ]. split; [reflexivity | ]. intros ->. congruence.
Qed.

Lemma zero_end_gives_zero_length_words_witness :
  B.chunk_duration 5%float 0%float = PyInt 0 /\
  List.length (B.chunk_entries Examples.chunk_zero_end) = List.length [py "a"; py "b"] /\
  forall w, In w (B.chunk_entries Examples.chunk_zero_end) ->
    B.start w = B.end_ w /\
    (5%float <> neg_zero -> B.start w = PyFloat.round2 5%float) /\
    (5%float = neg_zero ->
       B.start w = 0%float /\ PrimFloat.eqb (B.start w) (PyFloat.round2 5%float) = true).
Proof.
  apply (zero_end_gives_zero_length_words (py "a b") 5%float 0%float).
  - vm_compute. discriminate.
  - vm_compute. reflexivity.
Defined.

(* ================================================================= *)
(** * Further properties of the code *)

(** ** Splitting and trimming *)

Module SplitFacts.

Import PyStr.

(** A string is its leading whitespace followed by what [lstrip] keeps. *)
Lemma lstrip_decompose s :
  exists sp, forallb isspace sp = true /\ s = sp ++ lstrip s.
Proof.
  induction s as [ | c r (sp & Hsp & Hr)]; [now exists [] | ].
  simpl. destruct (isspace c) eqn:Ec.
  - exists (c :: sp). simpl. rewrite Ec, Hsp. split; [reflexivity | now rewrite <- Hr].
  - now exists [].
Qed.

(** What [lstrip] keeps does not start with whitespace. *)
Lemma lstrip_head s c r : lstrip s = c :: r -> isspace c = false.
Proof.
  induction s as [ | a s' IH]; simpl; [discriminate | ].
  destruct (isspace a) eqn:Ea; [exact IH | ].
  intros H. injection H as <- _. exact Ea.
Qed.

(** A string is what [rstrip] keeps followed by its trailing whitespace. *)
Lemma rstrip_decompose s :
  exists sp, forallb isspace sp = true /\ s = rstrip s ++ sp.
Proof.
  destruct (lstrip_decompose (rev s)) as (sp & Hsp & Hs).
  exists (rev sp). split.
  - rewrite forallb_forall in *. intros c Hc. apply Hsp. now apply in_rev.
  - unfold rstrip. rewrite <- rev_app_distr, <- Hs. now rewrite rev_involutive.
Qed.

Lemma split_from_snoc_space c : isspace c = true ->
  forall s cur, split_from cur (s ++ [c]) = split_from cur s.
Proof.
  intros Hc. induction s as [ | a r IH]; intros cur; simpl.
  - rewrite Hc. now destruct cur.
  - destruct (isspace a); [destruct cur | ]; now rewrite IH.
Qed.

Lemma split_from_app_spaces sp : forallb isspace sp = true ->
  forall s cur, split_from cur (s ++ sp) = split_from cur s.
Proof.
  induction sp as [ | c sp IH]; intros Hsp s cur.
  - now rewrite app_nil_r.
  - simpl in Hsp. apply andb_true_iff in Hsp. destruct Hsp as [Hc Hsp].
    change (c :: sp) with ([c] ++ sp). rewrite app_assoc, (IH Hsp).
    now apply split_from_snoc_space.
Qed.

Lemma split_lstrip s : split (lstrip s) = split s.
Proof.
  unfold split. induction s as [ | c r IH]; simpl; [reflexivity | ].
  destruct (isspace c) eqn:Ec; [exact IH | ]. simpl. now rewrite Ec.
Qed.

Lemma split_rstrip s : split (rstrip s) = split s.
Proof.
  destruct (rstrip_decompose s) as (sp & Hsp & Hs).
  rewrite Hs at 2. unfold split. now rewrite split_from_app_spaces.
Qed.

(** Every word [split] returns is a word, whatever was being read. *)
Lemma split_from_words s : forall cur,
  forallb (fun c => negb (isspace c)) cur = true ->
  forallb is_word (split_from cur s) = true.
Proof.
  assert (Hrev : forall cur, cur <> [] ->
            forallb (fun c => negb (isspace c)) cur = true -> is_word (rev cur) = true).
  { intros cur Hne Hcur. unfold is_word.
    destruct (rev cur) as [ | x l] eqn:Er.
    - apply (f_equal (@rev N)) in Er. rewrite rev_involutive in Er. now subst.
    - rewrite <- Er. rewrite forallb_forall in *. intros c Hc. apply Hcur. now apply in_rev. }
  induction s as [ | c r IH]; intros cur Hcur; simpl.
  - destruct cur as [ | x l]; [reflexivity | ].
    cbn [forallb]. rewrite (Hrev (x :: l)) by (congruence || assumption). reflexivity.
  - destruct (isspace c) eqn:Ec.
    + destruct cur as [ | x l]; [now apply IH | ].
      cbn [forallb]. rewrite (Hrev (x :: l)) by (congruence || assumption). now apply IH.
    + apply IH. simpl. now rewrite Ec.
Qed.

Lemma last_snoc {X} (l : list X) (x d : X) : last (l ++ [x]) d = x.
Proof.
  induction l as [ | a r IH]; [reflexivity | ].
  simpl. destruct (r ++ [x]) eqn:E; [now destruct r | exact IH].
Qed.

(** What [strip] keeps is trimmed. *)
Lemma strip_trimmed s : trimmed (strip s) = true.
Proof.
  unfold strip. set (t := lstrip s).
  destruct (rstrip t) as [ | c r] eqn:Er; [reflexivity | ].
  unfold trimmed.
  assert (Hhead : isspace c = false).
  { destruct (rstrip_decompose t) as (sp & _ & Ht). rewrite Er in Ht.
    apply (lstrip_head s c (r ++ sp)). exact Ht. }
  assert (Hlast : isspace (last (c :: r) c) = false).
  { unfold rstrip in Er.
    destruct (lstrip (rev t)) as [ | x l] eqn:El; [discriminate | ].
    pose proof (lstrip_head _ _ _ El) as Hx.
    simpl in Er. rewrite <- Er. now rewrite last_snoc. }
  now rewrite Hhead, Hlast.
Qed.

(** Trimming first does not change the words. *)
Lemma split_strip s : split (strip s) = split s.
Proof. unfold strip. now rewrite split_rstrip, split_lstrip. Qed.

End SplitFacts.

(** X1. [strip()] before [split()] changes nothing: the words of a text
    are the words of the trimmed text, so backend B's
    [chunk["text"].strip().split()] is [chunk["text"].split()]. *)
Theorem strip_then_split_is_split :
  forall s, PyStr.split (PyStr.strip s) = PyStr.split s.
Proof.
  intros s. apply SplitFacts.split_strip.
Qed.

(** ** What the word list is made of *)

Lemma for_words_in start_time d chunk_words : forall k e,
  In e (B.for_words start_time d k chunk_words) ->
  In (B.word e) chunk_words /\ B.probability e = 0.95%float.
Proof.
  induction chunk_words as [ | w rest IH]; intros k e Hin; simpl in Hin; [contradiction | ].
  destruct Hin as [<- | Hin]; [simpl; auto | ].
  destruct (IH (S k) e Hin) as [Hw Hp]. split; [now right | exact Hp].
Qed.

Lemma chunk_entries_in c e :
  In e (B.chunk_entries c) ->
  In (B.word e) (PyStr.split (PyStr.strip (B.chunk_text c))) /\
  B.probability e = 0.95%float.
Proof.
  unfold B.chunk_entries.
  destruct (B.chunk_timestamp c) as [ | | [s | ] [e' | ] ]; try contradiction;
    destruct (PyStr.split (PyStr.strip (B.chunk_text c))) as [ | w rest] eqn:Ew;
    try contradiction.
  apply for_words_in.
Qed.

(** X2. Every entry of backend B's ["words"], whatever the chunks, holds a
    word that is not empty and has no whitespace in it, and the
    probability [0.95]. *)
Theorem emitted_words_are_words :
  forall chunks return_timestamps e,
    In e (B.reconstruct_words chunks return_timestamps) ->
    is_word (B.word e) = true /\ B.probability e = 0.95%float.
Proof.
  intros chunks rt e Hin. rewrite reconstruct_words_flat in Hin.
  destruct rt; [ | contradiction].
  apply in_flat_map in Hin. destruct Hin as (c & _ & Hin).
  destruct (chunk_entries_in c e Hin) as [Hw Hp]. split; [ | exact Hp].
  pose proof (SplitFacts.split_from_words (PyStr.strip (B.chunk_text c)) [] eq_refl) as Hall.
  rewrite forallb_forall in Hall. now apply Hall.
Qed.

Lemma emitted_words_are_words_witness :
  is_word (py "b") = true /\ 0.95%float = 0.95%float.
Proof.
  apply (emitted_words_are_words [Examples.chunk_untimed; Examples.chunk_abc] true
           {| B.word := py "b"; B.start := 11%float; B.end_ := 12%float;
              B.probability := 0.95%float |}).
  vm_compute. right. left. reflexivity.
Defined.

Lemma chunk_entries_count c : List.length (B.chunk_entries c) = timed_word_count c.
Proof.
  unfold B.chunk_entries, timed_word_count.
  destruct (B.chunk_timestamp c) as [ | | [s | ] [e | ] ]; try reflexivity;
    destruct (PyStr.split (PyStr.strip (B.chunk_text c))) as [ | w rest] eqn:Ew;
    try reflexivity.
  now rewrite for_words_length.
Qed.

(** X3. Backend B builds ["words"] chunk by chunk: the words of two chunk
    lists put end to end are the words of the first followed by the words
    of the second; a chunk adds as many entries as its text has words when
    both ends of its timestamp are numbers, and none otherwise (so a chunk
    whose end is [None] is dropped); and without [return_timestamps] there
    are no words at all. *)
Theorem words_are_built_chunk_by_chunk :
  (forall before after return_timestamps,
     B.reconstruct_words (before ++ after) return_timestamps =
     B.reconstruct_words before return_timestamps ++
     B.reconstruct_words after return_timestamps) /\
  (forall chunks,
     List.length (B.reconstruct_words chunks true) = list_sum (map timed_word_count chunks)) /\
  (forall chunks, B.reconstruct_words chunks false = []) /\
  (forall text start_time, B.chunk_entries {| B.chunk_text := text;
       B.chunk_timestamp := B.Timestamp (Some start_time) None |} = []).
Proof.
  split; [ | split; [ | split] ].
  - intros before after rt. rewrite !reconstruct_words_flat.
    destruct rt; [apply flat_map_app | reflexivity].
  - intros chunks. rewrite reconstruct_words_flat.
    induction chunks as [ | c rest IH]; [reflexivity | ].
    simpl. now rewrite length_app, chunk_entries_count, IH.
  - intros chunks. now rewrite reconstruct_words_flat.
  - intros text start_time. apply length_zero_iff_nil. now rewrite chunk_entries_count.
Qed.

(** ** The transcript *)

(** X4. In a successful run of either adapter the output ["text"] is
    trimmed: it neither starts nor ends with a whitespace character. *)
Theorem output_text_is_trimmed :
  (forall env args v,
     A.succeeds env args v ->
     exists txt, get "text" v = Some (PStr txt) /\ trimmed txt = true) /\
  (forall env args v,
     B.succeeds env args v ->
     exists txt, get "text" v = Some (PStr txt) /\ trimmed txt = true).
Proof.
  split; intros env args v (_ & _ & t & Ht).
  - apply AFacts.run_try_ok_inv_A in Ht.
    destruct Ht as (model & g & info & _ & _ & _ & ->).
    eexists. split; [reflexivity | apply SplitFacts.strip_trimmed].
  - apply BFacts.run_try_ok_inv_B in Ht.
    destruct Ht as (pipe & audio & result & _ & _ & ->).
    eexists. split; [reflexivity | apply SplitFacts.strip_trimmed].
Qed.

Lemma output_text_is_trimmed_witness :
  (exists txt,
     get "text" (A.result_dict {| A.yielded := Examples.hello_segments; A.raises := None |}
                   Examples.info_en) = Some (PStr txt) /\ trimmed txt = true) /\
  (exists txt,
     get "text" (B.result_dict None true (repeat 0%float 8) Examples.english_result)
       = Some (PStr txt) /\ trimmed txt = true).
Proof.
  split.
  - apply (proj1 output_text_is_trimmed Examples.envA_ok Examples.argsA).
    repeat split; try reflexivity. eexists. reflexivity.
  - apply (proj2 output_text_is_trimmed Examples.envB_ok Examples.argsB).
    repeat split; try reflexivity. eexists. reflexivity.
Defined.



(** ** Exit status and order of events *)

Lemma quiet_only_calls {X} (m : M X) : quiet m -> only_calls (fst m) = true.
Proof.
  unfold quiet, only_calls. induction (fst m) as [ | ev t IH]; [reflexivity | ].
  destruct ev; simpl; [discriminate | exact IH].
Qed.

Lemma quiet_run_try_A env args : quiet (A.run_try env args).
Proof. exact (AFacts.run_try_prints_nothing env args). Qed.

(** X6. Either script ends with status [1] exactly when an import failed
    or the audio path does not exist, and with status [0] otherwise, also
    when the backend raised; and in every run the trace is some external
    calls followed by one print: one document is printed, last. *)
Theorem exit_status_and_single_document :
  (forall env args,
     exit_code (A.script env args) =
       (if A.import_ok env && A.path_exists env (A.arg_audio args) then 0 else 1) /\
     exists pre d, trace (A.script env args) = pre ++ [EvPrint d] /\ only_calls pre = true) /\
  (forall env args,
     exit_code (B.script env args) =
       (if B.import_ok env && B.path_exists env (B.arg_audio args) then 0 else 1) /\
     exists pre d, trace (B.script env args) = pre ++ [EvPrint d] /\ only_calls pre = true).
Proof.
  split; intros env args.
  - unfold A.script, A.main.
    destruct (A.import_ok env); [ | split; [reflexivity | eexists [], _; split; reflexivity] ].
    destruct (A.path_exists env (A.arg_audio args)); [ | split; [reflexivity | eexists [], _; split; reflexivity] ].
    simpl. pose proof (quiet_only_calls _ (quiet_run_try_A env args)) as Hq.
    unfold A.transcribe_audio. unfold A.run_try in Hq.
    destruct (A.try_body _ _ _ _ _ _ _) as [t [v | e]]; simpl in *;
      (split; [reflexivity | eexists _, _; split; [reflexivity | exact Hq] ]).
  - unfold B.script, B.main.
    destruct (B.import_ok env); [ | split; [reflexivity | eexists [], _; split; reflexivity] ].
    destruct (B.path_exists env (B.arg_audio args)); [ | split; [reflexivity | eexists [], _; split; reflexivity] ].
    simpl. pose proof (quiet_only_calls _ (BFacts.quiet_run_try env args)) as Hq.
    unfold B.transcribe_audio. unfold B.run_try in Hq.
    destruct (B.try_body _ _ _ _ _ _ _ _ _ _) as [t [v | e]]; simpl in *;
      (split; [reflexivity | eexists _, _; split; [reflexivity | exact Hq] ]).
Qed.

(** X7. Backend A calls [WhisperModel] only when the import worked and the
    audio file exists, and [model.transcribe] only when the model loaded;
    it makes no other external call, and none twice. *)
Theorem call_sequence_A :
  forall env args,
    calls (A.script env args) =
    if A.import_ok env && A.path_exists env (A.arg_audio args) then
      match A.WhisperModel env (A.arg_model args) (A.arg_device args) (A.arg_compute_type args) with
      | Ok _ => call_order_A
      | Raise _ => firstn 1 call_order_A
      end
    else [].
Proof.
  intros env args. unfold A.script, A.main.
  destruct (A.import_ok env); [ | reflexivity].
  destruct (A.path_exists env (A.arg_audio args)); [ | reflexivity].
  simpl. unfold A.transcribe_audio, A.try_body, bind, call, A.iterate, ret.
  destruct (A.WhisperModel env _ _ _) as [model | e]; [ | reflexivity].
  destruct (A.transcribe model _ _ _) as [[g info] | e]; [ | reflexivity].
  destruct (A.raises g); [reflexivity | ].
  destruct (A.for_segments (A.yielded g) [] []). reflexivity.
Qed.


(** ** Failures inside the [try] block *)

(** X9. When backend A's segment generator raises while it is iterated,
    the segments it yielded before are discarded: the run calls the model
    and [transcribe], prints only [{"error": str(e)}] and ends with status
    [0]. *)
Theorem partial_transcript_is_discarded :
  forall env args model g info e,
    A.import_ok env = true ->
    A.path_exists env (A.arg_audio args) = true ->
    A.WhisperModel env (A.arg_model args) (A.arg_device args) (A.arg_compute_type args)
      = Ok model ->
    A.transcribe model (A.arg_audio args) (A.language_kwarg (A.arg_language args))
      (A.task_kwarg (A.arg_translate args)) = Ok (g, info) ->
    A.raises g = Some e ->
    A.script env args =
      {| trace := [EvCall "WhisperModel"; EvCall "model.transcribe";
                   EvPrint (PDict [("error", PStr (exn_str e))])];
         exit_code := 0 |}.
Proof.
  intros env args model g info e Hi Hp Hm Ht Hg.
  rewrite (AFacts.script_runs_A env args
             [EvCall "WhisperModel"; EvCall "model.transcribe"]
             (PDict [("error", PStr (exn_str e))]) Hi Hp); [reflexivity | ].
  now rewrite (AFacts.run_try_generator_raises env args model g info e Hm Ht Hg).
Qed.

Lemma partial_transcript_is_discarded_witness :
  A.script Worlds.envA_breaks_midway Examples.argsA =
    {| trace := [EvCall "WhisperModel"; EvCall "model.transcribe";
                 EvPrint (PDict [("error", PStr (exn_str Worlds.out_of_memory))])];
       exit_code := 0 |}.
Proof.
  apply (partial_transcript_is_discarded Worlds.envA_breaks_midway Examples.argsA
           Worlds.model_breaks_midway
           {| A.yielded := Examples.hello_segments; A.raises := Some Worlds.out_of_memory |}
           Examples.info_en Worlds.out_of_memory); reflexivity.
Defined.

(** X10. In backend B a [--torch_dtype] that [torch] does not have is
    reported like any backend error, [{"error": str(e)}] with status [0],
    and before any model is loaded: the only external calls are the ones
    that choose the device and the dtype. *)
Theorem unknown_dtype_is_reported_before_loading :
  forall env args e,
    B.import_ok env = true ->
    B.path_exists env (B.arg_audio args) = true ->
    PyStr.eqb (B.arg_torch_dtype args) (py "auto") = false ->
    B.torch_getattr env (B.arg_torch_dtype args) = Raise e ->
    printed (B.script env args) = [PDict [("error", PStr (exn_str e))]] /\
    exit_code (B.script env args) = 0 /\
    forall c, In c (calls (B.script env args)) -> In c device_calls_B.
Proof.
  intros env args e Hi Hp Hd Hg.
  unfold B.script, B.main. rewrite Hi, Hp. simpl.
  unfold B.transcribe_audio, B.try_body, B.resolve_device, B.resolve_dtype.
  rewrite Hd, Hg.
  destruct (PyStr.eqb (B.arg_device args) (py "auto"));
    [destruct (B.cuda_is_available env) | ];
    (split; [reflexivity | split; [reflexivity | ] ]);
    unfold calls; simpl; intros c Hc; tauto.
Qed.

Lemma unknown_dtype_is_reported_before_loading_witness :
  printed (B.script Worlds.envB_no_dtype Worlds.argsB_float99)
    = [PDict [("error", PStr (exn_str Worlds.no_such_dtype))]] /\
  exit_code (B.script Worlds.envB_no_dtype Worlds.argsB_float99) = 0 /\
  forall c, In c (calls (B.script Worlds.envB_no_dtype Worlds.argsB_float99)) ->
            In c device_calls_B.
Proof.
  apply (unknown_dtype_is_reported_before_loading Worlds.envB_no_dtype Worlds.argsB_float99
           Worlds.no_such_dtype); reflexivity.
Defined.

(** ** The language argument *)

Lemma pystr_eqb_eq a : forall b, PyStr.eqb a b = true -> a = b.
Proof.
  induction a as [ | x a' IH]; intros [ | y b'] H; simpl in H; try discriminate.
  - reflexivity.
  - apply andb_true_iff in H. destruct H as [Hx Hr].
    apply N.eqb_eq in Hx. subst. f_equal. now apply IH.
Qed.

Lemma language_or_cases {X} (language : option pystr) (some : pystr -> X) (default : X) :
  B.language_or language some default = default \/
  exists l, language = Some l /\ l <> [] /\ l <> py "auto" /\
            B.language_or language some default = some l.
Proof.
  destruct language as [ [ | c r] | ]; [now left | | now left].
  unfold B.language_or. destruct (PyStr.eqb (c :: r) (py "auto")) eqn:E; [now left | ].
  right. exists (c :: r). repeat split; try discriminate.
  intros H. rewrite H, PyStrFacts.eqb_refl in E. discriminate.
Qed.

(** X11. The string ['auto'] never reaches a model as a language: backend
    A passes it on as [None], backend B passes neither ['auto'] nor the
    empty string; and the ["language"] backend B prints is never empty and
    never ['auto']. *)
Theorem auto_is_never_a_language :
  (forall language, A.language_kwarg language <> Some (py "auto")) /\
  (forall language translate,
     B.kw_language (B.generate_kwargs language translate) <> Some (py "auto") /\
     B.kw_language (B.generate_kwargs language translate) <> Some []) /\
  (forall env args v,
     B.succeeds env args v ->
     exists l, get "language" v = Some (PStr l) /\ l <> [] /\ l <> py "auto").
Proof.
  split; [ | split].
  - intros [l | ]; [ | discriminate]. unfold A.language_kwarg.
    destruct (PyStr.eqb l (py "auto")) eqn:E; [discriminate | ].
    intros H. injection H as ->. discriminate.
  - intros language translate. unfold B.generate_kwargs. simpl.
    destruct (language_or_cases language Some None) as [-> | (l & _ & Hne & Hna & ->)].
    + split; discriminate.
    + split; intros H; injection H as ->; congruence.
  - intros env args v (_ & _ & t & Ht).
    apply BFacts.run_try_ok_inv_B in Ht.
    destruct Ht as (pipe & audio & result & _ & _ & ->).
    eexists. split; [reflexivity | ].
    destruct (language_or_cases (B.arg_language args) (fun l => l) (py "pt"))
      as [-> | (l & _ & Hne & Hna & ->)]; [split; discriminate | now split].
Qed.

Lemma auto_is_never_a_language_witness :
  exists l, get "language" (B.result_dict None true (repeat 0%float 8) Examples.english_result)
              = Some (PStr l) /\ l <> [] /\ l <> py "auto".
Proof.
  apply (proj2 (proj2 auto_is_never_a_language) Examples.envB_ok Examples.argsB).
  repeat split; try reflexivity. eexists. reflexivity.
Defined.

(** X12. An empty [--language] value is no language for backend B, whose
    run is then the run without the flag; backend A keeps the empty string
    as the language it hands to the model. *)
Theorem empty_language_value :
  (forall env args,
     B.script env (B.with_language args (Some [])) =
     B.script env (B.with_language args None)) /\
  (forall translate, B.kw_language (B.generate_kwargs (Some []) translate) = None) /\
  A.language_kwarg (Some []) = Some [].
Proof.
  split; [ | split; reflexivity].
  intros env args. unfold B.script, B.main, B.transcribe_audio, B.try_body. reflexivity.
Qed.

(** ** More on the reconstructed words *)

(** X13. The words of the entries a chunk adds are the words of its text,
    in the order of the text, when both ends of its timestamp are numbers
    (also when the end is zero); otherwise the chunk adds nothing. *)
Theorem entries_follow_the_text :
  forall c,
    map B.word (B.chunk_entries c) =
    match B.chunk_timestamp c with
    | B.Timestamp (Some _) (Some _) => PyStr.split (B.chunk_text c)
    | _ => []
    end.
Proof.
  assert (Hmap : forall s d ws k, map B.word (B.for_words s d k ws) = ws).
  { intros s d ws. induction ws as [ | w rest IH]; intros k; simpl; [reflexivity | ].
    now rewrite IH. }
  intros c. unfold B.chunk_entries.
  destruct (B.chunk_timestamp c) as [ | | [s | ] [e | ] ]; try reflexivity;
    try rewrite <- (SplitFacts.split_strip (B.chunk_text c));
    destruct (PyStr.split (PyStr.strip (B.chunk_text c))) as [ | w rest] eqn:Ew;
    try reflexivity.
  apply Hmap.
Qed.

(** Adding a zero of either sign leaves a float as it is, unless the
    float is [-0.0]. *)
Lemma add_any_zero x z :
  x <> neg_zero -> PrimFloat.eqb z 0 = true -> is_finite z = true ->
  (x + z)%float = x.
Proof.
  intros Hx Hz Hfin. apply Prim2SF_inj. rewrite add_spec.
  rewrite FloatAxioms.eqb_spec in Hz. unfold is_finite in Hfin.
  change (Prim2SF 0) with (S754_zero false) in Hz.
  destruct (Prim2SF z) as [sz | sz | | sz mz ez]; try discriminate.
  - destruct (Prim2SF x) as [ [ | ] | sx | | sx mx ex] eqn:Ex; try reflexivity.
    + exfalso. apply Hx. apply Prim2SF_inj. now rewrite Ex.
    + now destruct sz.
  - destruct sz; discriminate.
Qed.

(** [0 * d] is a zero when [d] is a number. *)
Lemma zero_mul_finite d :
  is_finite d = true ->
  PrimFloat.eqb (PyFloat.of_nat 0 * d) 0 = true /\ is_finite (PyFloat.of_nat 0 * d) = true.
Proof.
  intros Hd. unfold is_finite in *.
  rewrite FloatAxioms.eqb_spec, mul_spec.
  change (Prim2SF (PyFloat.of_nat 0)) with (S754_zero false).
  change (Prim2SF 0) with (S754_zero false).
  destruct (Prim2SF d) as [s | s | | s m e]; try discriminate; split; reflexivity.
Qed.

(** X14. When a chunk has a word and its word duration is a number (not
    an infinity, not NaN), its first entry starts at [round(start, 2)]: the
    first word starts where the chunk does, up to the rounding.  (A start of
    [-0.0] is left out: the entry then carries [0.0].) *)
Theorem first_word_starts_with_the_chunk :
  forall text start_time end_time,
    PyStr.split (PyStr.strip text) <> [] ->
    start_time <> neg_zero ->
    is_finite (truediv_len (B.chunk_duration start_time end_time)
                 (List.length (PyStr.split (PyStr.strip text)))) = true ->
    exists first rest,
      B.chunk_entries {| B.chunk_text := text;
                         B.chunk_timestamp := B.Timestamp (Some start_time) (Some end_time) |}
        = first :: rest /\
      B.start first = PyFloat.round2 start_time.
Proof.
  intros text start_time end_time Hne Hnz Hfin.
  rewrite (chunk_entries_timed text start_time end_time Hne).
  destruct (PyStr.split (PyStr.strip text)) as [ | w rest] eqn:Ew; [congruence | ].
  cbn [B.for_words]. eexists _, _. split; [reflexivity | ]. cbn [B.start].
  destruct (zero_mul_finite _ Hfin) as [Hz Hf].
  now rewrite (add_any_zero start_time _ Hnz Hz Hf).
Qed.

Lemma first_word_starts_with_the_chunk_witness :
  exists first rest,
    B.chunk_entries Examples.chunk_abc = first :: rest /\
    B.start first = PyFloat.round2 10%float.
Proof.
  apply (first_word_starts_with_the_chunk (py "a b c") 10%float 13%float).
  - vm_compute. discriminate.
  - intros H. apply (f_equal Prim2SF) in H. vm_compute in H. discriminate.
  - vm_compute. reflexivity.
Defined.
